(** * grig-debug.c: the debug message handler of Grig

    A shallow embedding of [src/grig-debug.c] and of the GLib routines it
    calls, followed by the properties of the handler: the severity filter,
    the chomp/split pipeline, the record layout on standard error, and the
    handling of the process-wide threshold and log file name. *)

From Stdlib Require Import ZArith List Lia Bool Arith.
From Stdlib Require Import Strings.Ascii Strings.String.
Import ListNotations.

Open Scope string_scope.
Open Scope list_scope.
Open Scope Z_scope.

(** ** Characters used by the C sources *)

(** The C escape ['\n']. *)
Definition LF_char : ascii := ascii_of_nat 10.

(** The C string literal ["\n"]. *)
Definition LF : string := String LF_char EmptyString.

(** ** The GLib routines called by grig-debug.c

    GLib is an external library; each routine is modelled after its
    documented behaviour and its reference implementation. *)
Module Glib.

(** [g_ascii_isspace]: GLib's ASCII table marks space, horizontal tab,
    line feed, form feed and carriage return (and not vertical tab). *)
Definition g_ascii_isspace (c : ascii) : bool :=
  let n := nat_of_ascii c in
  (Nat.eqb n 32 || Nat.eqb n 9 || Nat.eqb n 10 || Nat.eqb n 12 || Nat.eqb n 13)%bool.

(** The loop of [g_strchomp]:
    [while (len--) { if (g_ascii_isspace (string[len])) string[len] = '\0'; else break; }].
    Writing the terminator at [len] truncates the string there. *)
Fixpoint strchomp_loop (len : nat) (s : string) : string :=
  match len with
  | O => s
  | S len' =>
      match String.get len' s with
      | Some c =>
          if g_ascii_isspace c
          then strchomp_loop len' (String.substring 0 len' s)
          else s
      | None => s
      end
  end.

(** [g_strchomp (string)]: removes trailing whitespace. *)
Definition g_strchomp (s : string) : string :=
  strchomp_loop (String.length s) s.

(** Membership of a byte in the delimiter table built by [g_strsplit_set]. *)
Fixpoint is_delimiter (delimiters : string) (c : ascii) : bool :=
  match delimiters with
  | EmptyString => false
  | String d rest => (Ascii.eqb d c || is_delimiter rest c)%bool
  end.

(** The test [n_tokens + 1 < max_tokens]; [None] stands for [G_MAXINT],
    which a token count cannot reach. *)
Definition may_cut (n_tokens : nat) (max_tokens : option nat) : bool :=
  match max_tokens with
  | None => true
  | Some m => Nat.ltb (S n_tokens) m
  end.

(** The scanning loop of [g_strsplit_set]. [current] holds the bytes
    between the [current] and [s] pointers. *)
Fixpoint strsplit_scan (delimiters : string) (max_tokens : option nat)
    (n_tokens : nat) (current : string) (s : string) : list string :=
  match s with
  | EmptyString => [current]
  | String c rest =>
      if (is_delimiter delimiters c && may_cut n_tokens max_tokens)%bool
      then current :: strsplit_scan delimiters max_tokens (S n_tokens) EmptyString rest
      else strsplit_scan delimiters max_tokens n_tokens
             (current ++ String c EmptyString) rest
  end.

(** [g_strsplit_set (string, delimiters, max_tokens)]: a [max_tokens]
    below 1 splits completely; the empty string yields the empty vector. *)
Definition g_strsplit_set (s delimiters : string) (max_tokens : Z) : list string :=
  let limit := if max_tokens <? 1 then None else Some (Z.to_nat max_tokens) in
  match s with
  | EmptyString => []
  | _ => strsplit_scan delimiters limit 0 EmptyString s
  end.

(** [g_strv_length]. *)
Definition g_strv_length (v : list string) : nat := List.length v.

(** The digit table [ascii_digits]. *)
Definition ascii_digit (d : Z) : ascii := ascii_of_nat (48 + Z.to_nat d).

(** [do { tmp[i++] = digits[number % 10]; number /= 10; } while (number);]
    followed by reading [tmp] backwards: the decimal digits of a
    non-negative number, most significant first. *)
Fixpoint digits_loop (fuel : nat) (number : Z) (tmp : string) : string :=
  let tmp' := String (ascii_digit (number mod 10)) tmp in
  match fuel with
  | O => tmp'
  | S fuel' =>
      if number / 10 =? 0 then tmp' else digits_loop fuel' (number / 10) tmp'
  end.

(** A number of iterations that covers every decimal digit of [number]. *)
Definition digits_fuel (number : Z) : nat := Z.to_nat (Z.log2 number).

Definition decimal_digits (number : Z) : string :=
  digits_loop (digits_fuel number) number EmptyString.

(** The padding loop of [format_number]: [while (pad && i < width) tmp[i++] = pad]. *)
Fixpoint pad_left (n : nat) (pad : ascii) (s : string) : string :=
  match n with
  | O => s
  | S n' => String pad (pad_left n' pad s)
  end.

(** [format_number (str, FALSE, pad, width, number)] of gdatetime.c. *)
Definition format_number (pad : option ascii) (width : nat) (number : Z) : string :=
  let digits := decimal_digits number in
  match pad with
  | Some p => pad_left (width - String.length digits) p digits
  | None => digits
  end.

(** The fields of a [GDateTime] read by the conversions below. *)
Record GDateTime := {
  year : Z;
  month : Z;
  day_of_month : Z;
  hour : Z;
  minute : Z;
  second : Z
}.

(** [g_date_time_format]: the conversions [%Y %m %d %H %M %S] and [%%];
    every other byte of the format is copied. *)
Fixpoint g_date_time_format (datetime : GDateTime) (format : string) : string :=
  match format with
  | EmptyString => EmptyString
  | String "%" (String c rest) =>
      let tail := g_date_time_format datetime rest in
      match c with
      | "Y"%char => format_number None 0 (year datetime) ++ tail
      | "m"%char => format_number (Some "0"%char) 2 (month datetime) ++ tail
      | "d"%char => format_number (Some "0"%char) 2 (day_of_month datetime) ++ tail
      | "H"%char => format_number (Some "0"%char) 2 (hour datetime) ++ tail
      | "M"%char => format_number (Some "0"%char) 2 (minute datetime) ++ tail
      | "S"%char => format_number (Some "0"%char) 2 (second datetime) ++ tail
      | "%"%char => String "%" tail
      | _ => String "%" (String c tail)
      end
  | String c rest => String c (g_date_time_format datetime rest)
  end.

(** The arguments a [va_list] can carry in the modelled printf fragment. *)
Inductive printf_arg :=
| ArgStr (s : string)
| ArgInt (i : Z).

(** [%d] of a C [int]. *)
Definition format_int (i : Z) : string :=
  if i <? 0 then String "-" (decimal_digits (- i)) else decimal_digits i.

(** [g_strdup_vprintf (format, args)], for the conversions [%s], [%d],
    [%i] and [%%] without flags, width or precision. The other conversions
    of C (such as [%c], [%x], [%02d] or [%5s]) are not modelled: there, and
    where the argument of a modelled conversion is missing or of the other
    kind (undefined behaviour in C), the model copies the directive and
    consumes nothing, which is not what C prints. The statements below take
    the formatted text as it comes and do not depend on that case. *)
Fixpoint g_strdup_vprintf (format : string) (args : list printf_arg) : string :=
  match format with
  | EmptyString => EmptyString
  | String "%" (String c rest) =>
      match c, args with
      | "%"%char, _ => String "%" (g_strdup_vprintf rest args)
      | "s"%char, ArgStr s :: args' => s ++ g_strdup_vprintf rest args'
      | "d"%char, ArgInt i :: args' => format_int i ++ g_strdup_vprintf rest args'
      | "i"%char, ArgInt i :: args' => format_int i ++ g_strdup_vprintf rest args'
      | _, _ => String "%" (String c (g_strdup_vprintf rest args))
      end
  | String c rest => String c (g_strdup_vprintf rest args)
  end.

End Glib.

Import Glib.

(** ** Declarations of the headers included by grig-debug.c *)

(** The constants of [<hamlib/rig.h>] named by grig-debug.c. The header
    belongs to the Hamlib library; its numeric values are left open. *)
Class rig_h := {
  RIG_OK : Z;
  RIG_DEBUG_NONE : Z;
  RIG_DEBUG_VERBOSE : Z;
  RIG_DEBUG_TRACE : Z
}.

(** The macro of ["grig-debug.h"] used by the record layout. *)
Class grig_debug_h := {
  GRIG_DEBUG_SEPARATOR : string
}.

(** Modelled from the spec: the enumeration [debug_msg_src_t] of
    ["grig-debug.h"], which is not part of the sources at hand. The spec
    lists the source tags NONE, EXTERNAL_LIBRARY and APPLICATION in this
    order, displayed as "NONE", "HAMLIB" and "GRIG". *)
Inductive debug_msg_src_t :=
| MSG_SRC_NONE
| MSG_SRC_HAMLIB
| MSG_SRC_GRIG.

(** The integer value of a source tag, used as an array index. *)
Definition src_index (source : debug_msg_src_t) : nat :=
  match source with
  | MSG_SRC_NONE => 0
  | MSG_SRC_HAMLIB => 1
  | MSG_SRC_GRIG => 2
  end.

(** [const gchar *SRC_TO_STR[] = {N_("NONE"), N_("HAMLIB"), N_("GRIG")};] *)
Definition SRC_TO_STR : list string := ["NONE"; "HAMLIB"; "GRIG"].

(** [_( )] and [N_( )]: gettext markers, the identity without a catalogue. *)
Definition gettext (msgid : string) : string := msgid.

(** ** Program state and environment *)

(** The file-scope variables of grig-debug.c together with the part of the
    environment its functions touch. *)
Record world := {
  dbglvl : Z;                            (* static enum rig_debug_level_e dbglvl *)
  logfname : option string;              (* static gchar *logfname *)
  hamlib_callback : bool;                (* is grig_debug_hamlib_cb registered with hamlib *)
  hamlib_level : option Z;               (* last value given to rig_set_debug *)
  stderr : list string;                  (* the texts written to stderr, one per g_fprintf *)
  clock : nat -> GDateTime;              (* the successive readings of the local clock *)
  clock_reads : nat                      (* how many readings were taken *)
}.

(** [rig_set_debug_callback (cb, NULL)]; [cb] is either
    [grig_debug_hamlib_cb] or [NULL]. *)
Definition rig_set_debug_callback (registered : bool) (w : world) : world :=
  {| dbglvl := dbglvl w; logfname := logfname w;
     hamlib_callback := registered; hamlib_level := hamlib_level w;
     stderr := stderr w; clock := clock w; clock_reads := clock_reads w |}.

(** [rig_set_debug (level)]. *)
Definition rig_set_debug (level : Z) (w : world) : world :=
  {| dbglvl := dbglvl w; logfname := logfname w;
     hamlib_callback := hamlib_callback w; hamlib_level := Some level;
     stderr := stderr w; clock := clock w; clock_reads := clock_reads w |}.

(** The assignment [dbglvl = level]. *)
Definition assign_dbglvl (level : Z) (w : world) : world :=
  {| dbglvl := level; logfname := logfname w;
     hamlib_callback := hamlib_callback w; hamlib_level := hamlib_level w;
     stderr := stderr w; clock := clock w; clock_reads := clock_reads w |}.

(** [g_date_time_new_now_local ()]: takes the next reading of the clock. *)
Definition g_date_time_new_now_local (w : world) : GDateTime * world :=
  (clock w (clock_reads w),
   {| dbglvl := dbglvl w; logfname := logfname w;
      hamlib_callback := hamlib_callback w; hamlib_level := hamlib_level w;
      stderr := stderr w; clock := clock w; clock_reads := S (clock_reads w) |}).

(** [g_fprintf (stderr, format, ...)]. *)
Definition g_fprintf_stderr (format : string) (args : list printf_arg) (w : world) : world :=
  {| dbglvl := dbglvl w; logfname := logfname w;
     hamlib_callback := hamlib_callback w; hamlib_level := hamlib_level w;
     stderr := stderr w ++ [g_strdup_vprintf format args];
     clock := clock w; clock_reads := clock_reads w |}.

(** [for (i = 0; i < n; i++) body (i);], written from the first index. *)
Fixpoint for_from (i : nat) (remaining : nat) (body : nat -> world -> world)
    (w : world) : world :=
  match remaining with
  | O => w
  | S remaining' => for_from (S i) remaining' body (body i w)
  end.

Definition for_upto (n : nat) (body : nat -> world -> world) (w : world) : world :=
  for_from 0 n body w.

(** [msgv[i]] for [i] below [g_strv_length (msgv)]. *)
Definition strv_nth (msgv : list string) (i : nat) : string :=
  nth i msgv EmptyString.

(** ** The functions of grig-debug.c *)
Section GrigDebug.

Context {hamlib : rig_h} {header : grig_debug_h}.

(** The state before [main] runs: [dbglvl = RIG_DEBUG_NONE], [logfname = NULL]. *)
Definition initial_world (clk : nat -> GDateTime) : world :=
  {| dbglvl := RIG_DEBUG_NONE; logfname := None;
     hamlib_callback := false; hamlib_level := None;
     stderr := []; clock := clk; clock_reads := 0 |}.

(** [static void manage_debug_message (source, debug_level, message)] *)
Definition manage_debug_message (source : debug_msg_src_t) (debug_level : Z)
    (message : string) (w : world) : world :=
  let '(tval, w) := g_date_time_new_now_local w in
  let msg_time := g_date_time_format tval "%Y/%m/%d %H:%M:%S" in
  g_fprintf_stderr ("%s%s%s%s%d%s%s" ++ LF)
    [ArgStr msg_time;
     ArgStr GRIG_DEBUG_SEPARATOR;
     ArgStr (nth (src_index source) SRC_TO_STR EmptyString);
     ArgStr GRIG_DEBUG_SEPARATOR;
     ArgInt debug_level;
     ArgStr GRIG_DEBUG_SEPARATOR;
     ArgStr message]
    w.

(** [int grig_debug_hamlib_cb (debug_level, user_data, fmt, ap)];
    [user_data] is not read. A level is the numeric value held by the C
    argument of type [enum rig_debug_level_e]; where the compiler gives the
    enumeration an unsigned type that value is never negative (the C
    argument -1 is the level 4294967295 here), and on such values the
    comparison below is the comparison of the C code. *)
Definition grig_debug_hamlib_cb (debug_level : Z) (fmt : string)
    (ap : list printf_arg) (w : world) : Z * world :=
  if debug_level >? dbglvl w then (RIG_OK, w)
  else
    let msg := g_strdup_vprintf fmt ap in
    let msg := g_strchomp msg in
    let msgv := g_strsplit_set msg LF 0 in
    let numlines := g_strv_length msgv in
    let w :=
      for_upto numlines
        (fun i => manage_debug_message MSG_SRC_HAMLIB debug_level (strv_nth msgv i)) w in
    (RIG_OK, w).

(** [int grig_debug_local (debug_level, fmt, ...)]; [va_start] and [va_end]
    bracket the use of the variable arguments [ap]. The level is read as in
    [grig_debug_hamlib_cb]: the numeric value of the C argument. *)
Definition grig_debug_local (debug_level : Z) (fmt : string)
    (ap : list printf_arg) (w : world) : Z * world :=
  if debug_level >? dbglvl w then (RIG_OK, w)
  else
    let msg := g_strdup_vprintf fmt ap in
    let msg := g_strchomp msg in
    let msgv := g_strsplit_set msg LF 0 in
    let numlines := g_strv_length msgv in
    let w :=
      for_upto numlines
        (fun i => manage_debug_message MSG_SRC_GRIG debug_level (strv_nth msgv i)) w in
    (RIG_OK, w).

(** [void grig_debug_init (gchar *filename)]; the branch on a non-NULL
    [filename] is empty in the source. *)
Definition grig_debug_init (filename : option string) (w : world) : world :=
  let w := match filename with
           | Some _ => w
           | None => w
           end in
  let w := rig_set_debug_callback true w in
  snd (grig_debug_local RIG_DEBUG_VERBOSE
         (gettext "%s: Debug handler initialised.") [ArgStr "grig_debug_init"] w).

(** [void grig_debug_close ()] *)
Definition grig_debug_close (w : world) : world :=
  let w := snd (grig_debug_local RIG_DEBUG_VERBOSE
                  (gettext "%s: Shutting down debug handler.")
                  [ArgStr "grig_debug_close"] w) in
  rig_set_debug_callback false w.

(** [gchar *grig_debug_get_log_file ()]; [g_strdup] returns an equal string. *)
Definition grig_debug_get_log_file (w : world) : option string :=
  match logfname w with
  | Some name => Some name
  | None => None
  end.

(** [void grig_debug_set_level (enum rig_debug_level_e level)] *)
Definition grig_debug_set_level (level : Z) (w : world) : world :=
  if ((level >=? RIG_DEBUG_NONE) && (level <=? RIG_DEBUG_TRACE))%bool
  then rig_set_debug level (assign_dbglvl level w)
  else w.

(** [int grig_debug_get_level ()] *)
Definition grig_debug_get_level (w : world) : Z := dbglvl w.

(** *** Sequences of calls into the module *)

Inductive call :=
| call_init (filename : option string)
| call_close
| call_hamlib_cb (debug_level : Z) (fmt : string) (ap : list printf_arg)
| call_local (debug_level : Z) (fmt : string) (ap : list printf_arg)
| call_get_log_file
| call_set_level (level : Z)
| call_get_level.

Definition run_call (c : call) (w : world) : world :=
  match c with
  | call_init filename => grig_debug_init filename w
  | call_close => grig_debug_close w
  | call_hamlib_cb debug_level fmt ap => snd (grig_debug_hamlib_cb debug_level fmt ap w)
  | call_local debug_level fmt ap => snd (grig_debug_local debug_level fmt ap w)
  | call_get_log_file => w
  | call_set_level level => grig_debug_set_level level w
  | call_get_level => w
  end.

Definition run_calls (cs : list call) (w : world) : world :=
  fold_left (fun w c => run_call c w) cs w.

(** *** Vocabulary of the properties *)

(** The body that the two entry points have in common, line for line,
    with the source tag as a parameter. *)
Definition debug_entry (source : debug_msg_src_t) (debug_level : Z)
    (fmt : string) (ap : list printf_arg) (w : world) : Z * world :=
  if debug_level >? dbglvl w then (RIG_OK, w)
  else
    let msg := g_strdup_vprintf fmt ap in
    let msg := g_strchomp msg in
    let msgv := g_strsplit_set msg LF 0 in
    let numlines := g_strv_length msgv in
    let w :=
      for_upto numlines
        (fun i => manage_debug_message source debug_level (strv_nth msgv i)) w in
    (RIG_OK, w).

(** The text of one record: timestamp, source name, level and message
    joined by the separator, closed by a line feed. *)
Definition debug_record (tval : GDateTime) (source : debug_msg_src_t)
    (debug_level : Z) (message : string) : string :=
  g_date_time_format tval "%Y/%m/%d %H:%M:%S" ++ GRIG_DEBUG_SEPARATOR
    ++ nth (src_index source) SRC_TO_STR EmptyString ++ GRIG_DEBUG_SEPARATOR
    ++ format_int debug_level ++ GRIG_DEBUG_SEPARATOR
    ++ message ++ LF.

(** The records of consecutive lines, stamped with consecutive clock
    readings starting at reading [n]. *)
Fixpoint records_from (clk : nat -> GDateTime) (n : nat) (source : debug_msg_src_t)
    (debug_level : Z) (lines : list string) : list string :=
  match lines with
  | [] => []
  | line :: rest =>
      debug_record (clk n) source debug_level line
        :: records_from clk (S n) source debug_level rest
  end.

End GrigDebug.

(** The values of Hamlib's [enum rig_debug_level_e] (NONE, BUG, ERR, WARN,
    VERBOSE, TRACE from 0) and of [RIG_OK], used to run the functions. *)
Definition hamlib_values : rig_h :=
  {| RIG_OK := 0; RIG_DEBUG_NONE := 0; RIG_DEBUG_VERBOSE := 4; RIG_DEBUG_TRACE := 5 |}.

(** The separator shown in the spec's example record. *)
Definition bar_separator : grig_debug_h := {| GRIG_DEBUG_SEPARATOR := "|" |}.

(** A clock for running the functions: noon of 2024-02-29, one second per reading. *)
Definition sample_clock (n : nat) : GDateTime :=
  {| year := 2024; month := 2; day_of_month := 29;
     hour := 12; minute := 0; second := Z.of_nat n mod 60 |}.

(** ** Vocabulary shared by the statements *)

(** Removal of the trailing bytes that satisfy [p], by recursion on the
    string: the functional reading of a chomp. *)
Fixpoint strip_trailing (p : ascii -> bool) (s : string) : string :=
  match s with
  | EmptyString => EmptyString
  | String c rest =>
      match strip_trailing p rest with
      | EmptyString => if p c then EmptyString else String c EmptyString
      | String c' rest' => String c (String c' rest')
      end
  end.

Definition is_newline (c : ascii) : bool := Ascii.eqb c LF_char.

(** Every byte of [s] satisfies [p]. *)
Fixpoint all_chars (p : ascii -> bool) (s : string) : bool :=
  match s with
  | EmptyString => true
  | String c rest => (p c && all_chars p rest)%bool
  end.

(** A text without line feed. *)
Definition no_newline (s : string) : bool := all_chars (fun c => negb (is_newline c)) s.

(** The number of line feeds in a text. *)
Fixpoint count_newlines (s : string) : nat :=
  match s with
  | EmptyString => O
  | String c rest => ((if is_newline c then 1 else 0) + count_newlines rest)%nat
  end.

(** The lines of a text joined again by line feeds. *)
Fixpoint join_lines (lines : list string) : string :=
  match lines with
  | [] => EmptyString
  | [line] => line
  | line :: rest => line ++ LF ++ join_lines rest
  end.

(** The message handed to the splitter as the spec words it: the formatted
    text with its trailing newline characters stripped, split on newline. *)
Definition lines_as_specified (msg : string) : list string :=
  g_strsplit_set (strip_trailing is_newline msg) LF 0.

(** The lines grig-debug.c hands to [manage_debug_message]. *)
Definition lines_of_message (msg : string) : list string :=
  g_strsplit_set (g_strchomp msg) LF 0.

(** A message whose last line is blank: "a", line feed, a space, line feed. *)
Definition blank_last_line : string := ("a" ++ LF ++ " " ++ LF)%string.

(** The two messages of the spec's multi-line example. *)
Definition two_lines_and_newline : string := ("line1" ++ LF ++ "line2" ++ LF)%string.

Definition lines_around_empty_line : string := ("line1" ++ LF ++ LF ++ "line2")%string.

(** Fixed-width decimal fields. *)
Definition two_digits (n : Z) : string :=
  String (ascii_digit (n / 10)) (String (ascii_digit (n mod 10)) EmptyString).

Definition four_digits (n : Z) : string :=
  String (ascii_digit (n / 1000))
    (String (ascii_digit (n / 100 mod 10))
       (String (ascii_digit (n / 10 mod 10))
          (String (ascii_digit (n mod 10)) EmptyString))).

(** The layout [YYYY/MM/DD HH:MM:SS]. *)
Definition YYYY_MM_DD_HH_MM_SS (t : GDateTime) : string :=
  four_digits (year t) ++ "/" ++ two_digits (month t) ++ "/"
    ++ two_digits (day_of_month t) ++ " " ++ two_digits (hour t) ++ ":"
    ++ two_digits (minute t) ++ ":" ++ two_digits (second t).

(** A reading of the local clock: calendar fields in range and a year of
    four digits. *)
Definition wall_clock_time (t : GDateTime) : Prop :=
  1000 <= year t <= 9999 /\ 1 <= month t <= 12 /\ 1 <= day_of_month t <= 31
  /\ 0 <= hour t <= 23 /\ 0 <= minute t <= 59 /\ 0 <= second t <= 59.

(** The world after the records [recs] were written, each stamped with its
    own reading of the clock; nothing else changes. *)
Definition emitted (recs : list string) (w : world) : world :=
  {| dbglvl := dbglvl w; logfname := logfname w;
     hamlib_callback := hamlib_callback w; hamlib_level := hamlib_level w;
     stderr := stderr w ++ recs;
     clock := clock w; clock_reads := (clock_reads w + List.length recs)%nat |}.

(** A call that is not [grig_debug_set_level]. *)
Definition not_set_level (c : call) : Prop :=
  match c with
  | call_set_level _ => False
  | _ => True
  end.

(** A call that, if it logs, logs above the level [l]. *)
Definition logs_above (l : Z) (c : call) : Prop :=
  match c with
  | call_hamlib_cb debug_level _ _ => l < debug_level
  | call_local debug_level _ _ => l < debug_level
  | _ => True
  end.

(** ** The spec's sentences that are compared with the code *)
Section AsWorded.

Context {hamlib : rig_h} {header : grig_debug_h}.

(** A text of [stderr] is a record of some line: stamped with a reading
    of the clock [clk] and carrying a message without line feed. *)
Definition record_of_clock (clk : nat -> GDateTime) (r : string) : Prop :=
  exists n source debug_level message,
    r = debug_record (clk n) source debug_level message
    /\ no_newline message = true.

(** The level filter in the spec's words: after [set_level L] with a
    valid [L], a call above [L] writes nothing and a call at or below [L]
    whose formatted message is not empty writes something. *)
Definition level_filter_as_worded : Prop :=
  forall (L : Z) (w : world) (debug_level : Z) (fmt : string) (ap : list printf_arg),
    RIG_DEBUG_NONE <= L <= RIG_DEBUG_TRACE ->
    let w' := grig_debug_set_level L w in
    (L < debug_level ->
       stderr (snd (grig_debug_local debug_level fmt ap w')) = stderr w'
       /\ stderr (snd (grig_debug_hamlib_cb debug_level fmt ap w')) = stderr w')
    /\ (debug_level <= L -> g_strdup_vprintf fmt ap <> EmptyString ->
          stderr (snd (grig_debug_local debug_level fmt ap w')) <> stderr w'
          /\ stderr (snd (grig_debug_hamlib_cb debug_level fmt ap w')) <> stderr w').

(** The pipeline of the library callback in the spec's words: the lines
    written are those of the message with its trailing newline characters
    stripped. *)
Definition receive_pipeline_as_worded : Prop :=
  forall (w : world) (debug_level : Z) (fmt : string) (ap : list printf_arg),
    debug_level <= dbglvl w ->
    stderr (snd (grig_debug_hamlib_cb debug_level fmt ap w))
    = stderr w
        ++ records_from (clock w) (clock_reads w) MSG_SRC_HAMLIB debug_level
             (lines_as_specified (g_strdup_vprintf fmt ap)).

(** The initial silence in the spec's words: the threshold starts at
    NONE and, as long as [set_level] is not called, nothing is written. *)
Definition initial_silence_as_worded : Prop :=
  forall (clk : nat -> GDateTime),
    dbglvl (initial_world clk) = RIG_DEBUG_NONE
    /\ forall calls, Forall not_set_level calls ->
         stderr (run_calls calls (initial_world clk)) = [].

End AsWorded.

(** ** Vocabulary of the properties of whole runs *)

(** What one record says: its source, its level and its message. *)
Record entry := {
  entry_source : debug_msg_src_t;
  entry_level : Z;
  entry_message : string
}.

Section Entries.

Context {header : grig_debug_h}.

(** The records of [entries], the k-th stamped with the clock reading [n + k]. *)
Fixpoint stamped_records (clk : nat -> GDateTime) (n : nat) (entries : list entry)
    : list string :=
  match entries with
  | [] => []
  | e :: rest =>
      debug_record (clk n) (entry_source e) (entry_level e) (entry_message e)
        :: stamped_records clk (S n) rest
  end.

End Entries.

(** An entry as the two entry points produce them: tagged HAMLIB or GRIG,
    with a message of one line. *)
Definition logged_entry (e : entry) : Prop :=
  (entry_source e = MSG_SRC_HAMLIB \/ entry_source e = MSG_SRC_GRIG)
  /\ no_newline (entry_message e) = true.

(** From [w] to [w'] nothing happened but writes to standard error, each
    with its reading of the clock: threshold, log file name, callback
    registration and hamlib's level are those of [w], and the texts already
    on standard error are still there. *)
Definition only_writes (w w' : world) : Prop :=
  dbglvl w' = dbglvl w
  /\ logfname w' = logfname w
  /\ hamlib_callback w' = hamlib_callback w
  /\ hamlib_level w' = hamlib_level w
  /\ clock w' = clock w
  /\ exists recs,
       stderr w' = stderr w ++ recs
       /\ clock_reads w' = (clock_reads w + List.length recs)%nat.

(** A session: threshold 4, [init], a two-line library message, [close]. *)
Definition sample_session : list call :=
  [call_set_level 4;
   call_init None;
   call_hamlib_cb 2 ("rig_open: %s" ++ LF ++ "retry %d" ++ LF)
     [ArgStr "timeout"; ArgInt 3];
   call_close].

(** A call that neither registers nor removes the callback. *)
Definition keeps_registration (c : call) : Prop :=
  match c with
  | call_init _ => False
  | call_close => False
  | _ => True
  end.

(** ** Facts about strings *)
Section StringFacts.

Lemma append_nil_r (s : string) : (s ++ EmptyString)%string = s.
Proof. induction s as [|c s IH]; simpl; [reflexivity | now rewrite IH]. Qed.

Lemma append_assoc (a b c : string) :
  ((a ++ b) ++ c)%string = (a ++ (b ++ c))%string.
Proof. induction a as [|x a IH]; simpl; [reflexivity | now rewrite IH]. Qed.

Lemma length_append (a b : string) :
  String.length (a ++ b) = (String.length a + String.length b)%nat.
Proof. induction a as [|x a IH]; simpl; [reflexivity | now rewrite IH]. Qed.

Lemma get_snoc (p : string) (c : ascii) :
  String.get (String.length p) (p ++ String c EmptyString) = Some c.
Proof. induction p as [|x p IH]; simpl; [reflexivity | exact IH]. Qed.

Lemma substring_snoc (p : string) (c : ascii) :
  String.substring 0 (String.length p) (p ++ String c EmptyString) = p.
Proof. induction p as [|x p IH]; simpl; [reflexivity | now rewrite IH]. Qed.

(** A non-empty string ends with some byte. *)
Lemma string_snoc_cases (s : string) :
  s = EmptyString \/ exists p c, s = (p ++ String c EmptyString)%string.
Proof.
  induction s as [|x s IH]; [now left | right].
  destruct IH as [-> | (p & c & ->)].
  - exists EmptyString, x. reflexivity.
  - exists (String x p), c. reflexivity.
Qed.

(** Induction from the right end of a string. *)
Lemma string_rev_ind (P : string -> Prop) :
  P EmptyString ->
  (forall p c, P p -> P (p ++ String c EmptyString)%string) ->
  forall s, P s.
Proof.
  intros Hnil Hsnoc s.
  remember (String.length s) as n eqn:Hn.
  revert s Hn. induction n as [|n IH]; intros s Hn.
  - destruct s; [exact Hnil | discriminate].
  - destruct (string_snoc_cases s) as [-> | (p & c & ->)]; [exact Hnil |].
    apply Hsnoc, IH. rewrite length_append in Hn. simpl in Hn. lia.
Qed.

Lemma all_chars_append (p : ascii -> bool) (a b : string) :
  all_chars p (a ++ b) = (all_chars p a && all_chars p b)%bool.
Proof.
  induction a as [|x a IH]; simpl; [reflexivity |].
  now rewrite IH, andb_assoc.
Qed.

Lemma count_newlines_append (a b : string) :
  count_newlines (a ++ b) = (count_newlines a + count_newlines b)%nat.
Proof. induction a as [|x a IH]; simpl; [reflexivity | rewrite IH; lia]. Qed.

Lemma no_newline_count (s : string) :
  no_newline s = true -> count_newlines s = O.
Proof.
  unfold no_newline. induction s as [|x s IH]; simpl; [reflexivity |].
  intros H. apply andb_true_iff in H as [Hx Hs].
  apply negb_true_iff in Hx. rewrite Hx, (IH Hs). reflexivity.
Qed.

Lemma no_newline_append (a b : string) :
  no_newline (a ++ b) = (no_newline a && no_newline b)%bool.
Proof. apply all_chars_append. Qed.

End StringFacts.

(** ** Facts about the GLib routines *)
Section GlibFacts.

(** *** g_strchomp *)

Lemma strip_trailing_snoc (f : ascii -> bool) (p : string) (c : ascii) :
  strip_trailing f (p ++ String c EmptyString)
  = if f c then strip_trailing f p else (p ++ String c EmptyString)%string.
Proof.
  induction p as [|a p IH]; simpl.
  - destruct (f c); reflexivity.
  - rewrite IH. destruct (f c).
    + reflexivity.
    + destruct p; reflexivity.
Qed.

Lemma g_strchomp_snoc (p : string) (c : ascii) :
  g_strchomp (p ++ String c EmptyString)
  = if g_ascii_isspace c then g_strchomp p else (p ++ String c EmptyString)%string.
Proof.
  unfold g_strchomp. rewrite length_append. simpl String.length.
  replace (String.length p + 1)%nat with (S (String.length p)) by lia.
  simpl strchomp_loop. rewrite get_snoc, substring_snoc. reflexivity.
Qed.

(** The loop of [g_strchomp] computes the structural chomp. *)
Lemma g_strchomp_strip (s : string) :
  g_strchomp s = strip_trailing g_ascii_isspace s.
Proof.
  induction s as [|p c IH] using string_rev_ind; [reflexivity |].
  rewrite g_strchomp_snoc, strip_trailing_snoc, IH. reflexivity.
Qed.

(** What a chomp removes is a suffix made of stripped bytes. *)
Lemma strip_trailing_suffix (f : ascii -> bool) (s : string) :
  exists ws, s = (strip_trailing f s ++ ws)%string /\ all_chars f ws = true.
Proof.
  induction s as [|p c IH] using string_rev_ind.
  - exists EmptyString. split; reflexivity.
  - rewrite strip_trailing_snoc. destruct (f c) eqn:Hc.
    + destruct IH as (ws & Hp & Hws).
      exists (ws ++ String c EmptyString)%string. split.
      * rewrite <- append_assoc, <- Hp. reflexivity.
      * rewrite all_chars_append, Hws. simpl. now rewrite Hc.
    + exists EmptyString. split; [now rewrite append_nil_r | reflexivity].
Qed.

(** What a chomp leaves does not end with a stripped byte. *)
Lemma strip_trailing_last (f : ascii -> bool) (s p : string) (c : ascii) :
  strip_trailing f s = (p ++ String c EmptyString)%string -> f c = false.
Proof.
  revert p c. induction s as [|q d IH] using string_rev_ind; intros p c H.
  - destruct p; discriminate.
  - rewrite strip_trailing_snoc in H. destruct (f d) eqn:Hd.
    + eapply IH; eassumption.
    + assert (Hlen : String.length q = String.length p).
      { apply (f_equal String.length) in H. rewrite !length_append in H.
        simpl in H. lia. }
      assert (Hg : String.get (String.length q) (q ++ String d EmptyString)
                   = String.get (String.length q) (p ++ String c EmptyString))
        by now rewrite H.
      rewrite get_snoc, Hlen, get_snoc in Hg. now inversion Hg; subst.
Qed.

Lemma strip_trailing_all (f : ascii -> bool) (s : string) :
  all_chars f s = true -> strip_trailing f s = EmptyString.
Proof.
  induction s as [|c s IH]; simpl; [reflexivity |].
  intros H. apply andb_true_iff in H as [Hc Hs].
  now rewrite (IH Hs), Hc.
Qed.

(** The chomp of a text is empty exactly when the text is whitespace. *)
Lemma g_strchomp_empty_iff (s : string) :
  g_strchomp s = EmptyString <-> all_chars g_ascii_isspace s = true.
Proof.
  rewrite g_strchomp_strip. split.
  - intros H. destruct (strip_trailing_suffix g_ascii_isspace s) as (ws & Hs & Hws).
    rewrite H in Hs. simpl in Hs. now subst ws.
  - apply strip_trailing_all.
Qed.

End GlibFacts.

Section SplitFacts.

Variable delimiters : string.

Lemma strsplit_scan_nonempty (n : nat) (current s : string) :
  strsplit_scan delimiters None n current s <> [].
Proof.
  revert n current. induction s as [|c s IH]; intros n current; simpl.
  - discriminate.
  - rewrite andb_true_r. destruct (is_delimiter delimiters c).
    + discriminate.
    + apply IH.
Qed.

(** A delimiter at the very end opens one more, empty, token. *)
Lemma strsplit_scan_trailing (n : nat) (current s : string) (c : ascii) :
  is_delimiter delimiters c = true ->
  strsplit_scan delimiters None n current (s ++ String c EmptyString)
  = strsplit_scan delimiters None n current s ++ [EmptyString].
Proof.
  intros Hc. revert n current.
  induction s as [|x s IH]; intros n current; simpl.
  - now rewrite Hc.
  - rewrite andb_true_r. destruct (is_delimiter delimiters x).
    + simpl. f_equal. apply IH.
    + apply IH.
Qed.

(** No token holds a delimiter. *)
Lemma strsplit_scan_tokens (n : nat) (current s : string) :
  all_chars (fun c => negb (is_delimiter delimiters c)) current = true ->
  Forall (fun tok => all_chars (fun c => negb (is_delimiter delimiters c)) tok = true)
    (strsplit_scan delimiters None n current s).
Proof.
  revert n current. induction s as [|x s IH]; intros n current Hcur; simpl.
  - constructor; [exact Hcur | constructor].
  - rewrite andb_true_r. destruct (is_delimiter delimiters x) eqn:Hx.
    + constructor; [exact Hcur | apply IH; reflexivity].
    + apply IH. rewrite all_chars_append, Hcur. simpl. now rewrite Hx.
Qed.

End SplitFacts.

Section NewlineSplit.

Lemma is_delimiter_LF (c : ascii) : is_delimiter LF c = is_newline c.
Proof.
  unfold is_newline, LF. cbn [is_delimiter].
  rewrite orb_false_r. apply Ascii.eqb_sym.
Qed.

Lemma g_strsplit_set_scan (c : ascii) (s : string) :
  g_strsplit_set (String c s) LF 0
  = strsplit_scan LF None 0 EmptyString (String c s).
Proof. reflexivity. Qed.

(** Only the empty message has no line. *)
Lemma g_strsplit_set_nil (s : string) :
  g_strsplit_set s LF 0 = [] <-> s = EmptyString.
Proof.
  split.
  - destruct s as [|c s]; [reflexivity |].
    rewrite g_strsplit_set_scan. intros H.
    now apply strsplit_scan_nonempty in H.
  - intros ->. reflexivity.
Qed.

Lemma join_lines_cons (line : string) (rest : list string) :
  rest <> [] -> join_lines (line :: rest) = (line ++ LF ++ join_lines rest)%string.
Proof. destruct rest; [congruence | reflexivity]. Qed.

Lemma strsplit_scan_join (n : nat) (current s : string) :
  join_lines (strsplit_scan LF None n current s) = (current ++ s)%string.
Proof.
  revert n current. induction s as [|x s IH]; intros n current.
  - simpl. now rewrite append_nil_r.
  - cbn [strsplit_scan may_cut]. rewrite andb_true_r, is_delimiter_LF.
    destruct (is_newline x) eqn:Hx.
    + rewrite join_lines_cons by apply strsplit_scan_nonempty.
      rewrite IH. simpl. unfold is_newline in Hx.
      apply Ascii.eqb_eq in Hx. subst x. reflexivity.
    + rewrite IH, append_assoc. reflexivity.
Qed.

(** Joining the lines by line feeds gives the split text back: the split
    keeps the order of the lines and every empty line. *)
Lemma g_strsplit_set_join (s : string) :
  join_lines (g_strsplit_set s LF 0) = s.
Proof.
  destruct s as [|c s]; [reflexivity |].
  rewrite g_strsplit_set_scan. apply strsplit_scan_join.
Qed.

Lemma g_strsplit_set_lines (s : string) :
  Forall (fun line => no_newline line = true) (g_strsplit_set s LF 0).
Proof.
  destruct s as [|c s]; [constructor |].
  rewrite g_strsplit_set_scan.
  eapply Forall_impl; [| apply strsplit_scan_tokens; reflexivity].
  intros tok Htok. unfold no_newline.
  clear -Htok. induction tok as [|x tok IH]; [reflexivity |].
  cbn [all_chars] in *. apply andb_true_iff in Htok as [Hx Htok].
  rewrite is_delimiter_LF in Hx.
  rewrite Hx. apply IH. exact Htok.
Qed.

(** The split keeps an empty segment after a final line feed. *)
Lemma g_strsplit_set_trailing (s : string) :
  s <> EmptyString ->
  g_strsplit_set (s ++ LF) LF 0 = g_strsplit_set s LF 0 ++ [EmptyString].
Proof.
  destruct s as [|c s]; [congruence | intros _].
  change ((String c s ++ LF)%string) with (String c (s ++ LF)).
  rewrite !g_strsplit_set_scan.
  change (String c (s ++ LF)) with ((String c s ++ String LF_char EmptyString)%string).
  apply strsplit_scan_trailing. rewrite is_delimiter_LF.
  unfold is_newline. apply Ascii.eqb_refl.
Qed.

Lemma strsplit_scan_length (n : nat) (current s : string) :
  List.length (strsplit_scan LF None n current s) = S (count_newlines s).
Proof.
  revert n current.
  induction s as [|x s IH]; intros n current; cbn [strsplit_scan may_cut count_newlines].
  - reflexivity.
  - rewrite andb_true_r, is_delimiter_LF.
    destruct (is_newline x); cbn [List.length]; now rewrite IH.
Qed.

(** A non-empty text has one line more than it has line feeds. *)
Lemma g_strsplit_set_length (s : string) :
  List.length (g_strsplit_set s LF 0)
  = match s with
    | EmptyString => O
    | String _ _ => S (count_newlines s)
    end.
Proof.
  destruct s as [|c s]; [reflexivity |].
  rewrite g_strsplit_set_scan. apply strsplit_scan_length.
Qed.

End NewlineSplit.

(** ** Facts about number formatting *)
Section NumberFacts.

(** Checking a decidable property on every integer of a range. *)
Lemma Z_range_forallb (P : Z -> bool) (lo len : Z) :
  forallb P (map (fun k => lo + Z.of_nat k) (seq 0 (Z.to_nat len))) = true ->
  forall z, lo <= z < lo + len -> P z = true.
Proof.
  intros H z Hz. rewrite forallb_forall in H. apply H.
  apply in_map_iff. exists (Z.to_nat (z - lo)). split; [lia |].
  apply in_seq. lia.
Qed.

Lemma ascii_digit_not_newline (d : Z) :
  0 <= d < 10 -> is_newline (ascii_digit d) = false.
Proof.
  intros Hd.
  apply (Z_range_forallb (fun d => negb (is_newline (ascii_digit d))) 0 10) in Hd.
  - now apply negb_true_iff in Hd.
  - vm_compute. reflexivity.
Qed.

Lemma digits_loop_no_newline (fuel : nat) (number : Z) (tmp : string) :
  no_newline tmp = true -> no_newline (digits_loop fuel number tmp) = true.
Proof.
  revert number tmp. induction fuel as [|fuel IH]; intros number tmp Htmp.
  - cbn [digits_loop]. unfold no_newline in *. cbn [all_chars].
    rewrite ascii_digit_not_newline by (apply Z.mod_pos_bound; lia).
    exact Htmp.
  - cbn [digits_loop].
    assert (Hd : no_newline (String (ascii_digit (number mod 10)) tmp) = true).
    { unfold no_newline in *. cbn [all_chars].
      rewrite ascii_digit_not_newline by (apply Z.mod_pos_bound; lia).
      exact Htmp. }
    destruct (number / 10 =? 0); [exact Hd | apply IH, Hd].
Qed.

Lemma format_int_no_newline (i : Z) : no_newline (format_int i) = true.
Proof.
  unfold format_int, decimal_digits. destruct (i <? 0).
  - change (no_newline (String "-" ?s)) with (no_newline s).
    apply digits_loop_no_newline. reflexivity.
  - apply digits_loop_no_newline. reflexivity.
Qed.

Lemma format_number_two_digits (n : Z) :
  0 <= n <= 99 ->
  format_number (Some "0"%char) 2 n = two_digits n /\ no_newline (two_digits n) = true.
Proof.
  intros Hn.
  assert (H : (String.eqb (format_number (Some "0"%char) 2 n) (two_digits n)
               && no_newline (two_digits n))%bool = true).
  { apply (Z_range_forallb
             (fun n => (String.eqb (format_number (Some "0"%char) 2 n) (two_digits n)
                        && no_newline (two_digits n))%bool) 0 100); [| lia].
    vm_compute. reflexivity. }
  apply andb_true_iff in H as [H1 H2]. apply String.eqb_eq in H1. now split.
Qed.

Lemma format_number_four_digits (n : Z) :
  1000 <= n <= 9999 ->
  format_number None 0 n = four_digits n /\ no_newline (four_digits n) = true.
Proof.
  intros Hn.
  assert (H : (String.eqb (format_number None 0 n) (four_digits n)
               && no_newline (four_digits n))%bool = true).
  { apply (Z_range_forallb
             (fun n => (String.eqb (format_number None 0 n) (four_digits n)
                        && no_newline (four_digits n))%bool) 1000 9000); [| lia].
    vm_compute. reflexivity. }
  apply andb_true_iff in H as [H1 H2]. apply String.eqb_eq in H1. now split.
Qed.

(** The format of [manage_debug_message] yields the fixed-width layout. *)
Lemma g_date_time_format_layout (t : GDateTime) :
  wall_clock_time t ->
  g_date_time_format t "%Y/%m/%d %H:%M:%S" = YYYY_MM_DD_HH_MM_SS t
  /\ no_newline (YYYY_MM_DD_HH_MM_SS t) = true.
Proof.
  intros (Hy & Hm & Hd & Hh & Hmi & Hs).
  destruct (format_number_four_digits (year t) Hy) as [Ey Ny].
  destruct (format_number_two_digits (month t)) as [Em Nm]; [lia |].
  destruct (format_number_two_digits (day_of_month t)) as [Ed Nd]; [lia |].
  destruct (format_number_two_digits (hour t)) as [Eh Nh]; [lia |].
  destruct (format_number_two_digits (minute t)) as [Emi Nmi]; [lia |].
  destruct (format_number_two_digits (second t)) as [Es Ns]; [lia |].
  split.
  - cbn [g_date_time_format]. rewrite Ey, Em, Ed, Eh, Emi, Es.
    rewrite append_nil_r. reflexivity.
  - unfold YYYY_MM_DD_HH_MM_SS.
    rewrite !no_newline_append, Ny, Nm, Nd, Nh, Nmi, Ns. reflexivity.
Qed.

End NumberFacts.

(** ** Facts about the functions of grig-debug.c *)
Section HandlerFacts.

Context {hamlib : rig_h} {header : grig_debug_h}.

Lemma emitted_nil (w : world) : emitted [] w = w.
Proof.
  destruct w. unfold emitted. cbn [stderr clock_reads List.length].
  rewrite app_nil_r, Nat.add_0_r. reflexivity.
Qed.

(** One call of [manage_debug_message] writes one record. *)
Lemma manage_debug_message_record (source : debug_msg_src_t) (debug_level : Z)
    (message : string) (w : world) :
  manage_debug_message source debug_level message w
  = emitted [debug_record (clock w (clock_reads w)) source debug_level message] w.
Proof.
  unfold manage_debug_message, g_date_time_new_now_local, g_fprintf_stderr, emitted.
  cbn [dbglvl logfname hamlib_callback hamlib_level stderr clock clock_reads List.length].
  rewrite Nat.add_1_r. reflexivity.
Qed.

Lemma emitted_emitted (a b : list string) (w : world) :
  emitted b (emitted a w) = emitted (a ++ b) w.
Proof.
  unfold emitted.
  cbn [dbglvl logfname hamlib_callback hamlib_level stderr clock clock_reads].
  rewrite <- app_assoc, length_app, Nat.add_assoc. reflexivity.
Qed.

(** The counted loop over [msgv] visits the lines in order. *)
Lemma for_from_lines (f : string -> world -> world) (pre rest : list string)
    (w : world) :
  for_from (List.length pre) (List.length rest)
    (fun i => f (strv_nth (pre ++ rest) i)) w
  = fold_left (fun w line => f line w) rest w.
Proof.
  revert pre w. induction rest as [|line rest IH]; intros pre w.
  - reflexivity.
  - cbn [List.length for_from fold_left].
    replace (strv_nth (pre ++ line :: rest) (List.length pre)) with line.
    + specialize (IH (pre ++ [line]) (f line w)).
      rewrite length_app, Nat.add_1_r, <- app_assoc in IH. exact IH.
    + unfold strv_nth. rewrite app_nth2 by lia.
      now rewrite Nat.sub_diag.
Qed.

Lemma fold_manage_debug_message (source : debug_msg_src_t) (debug_level : Z)
    (lines : list string) (w : world) :
  fold_left (fun w line => manage_debug_message source debug_level line w) lines w
  = emitted (records_from (clock w) (clock_reads w) source debug_level lines) w.
Proof.
  revert w. induction lines as [|line lines IH]; intros w.
  - cbn [fold_left records_from]. now rewrite emitted_nil.
  - cbn [fold_left records_from]. rewrite IH, manage_debug_message_record.
    rewrite emitted_emitted. unfold emitted at 2 3.
    cbn [clock clock_reads List.length]. rewrite Nat.add_1_r. reflexivity.
Qed.

Lemma hamlib_cb_entry (debug_level : Z) (fmt : string) (ap : list printf_arg)
    (w : world) :
  grig_debug_hamlib_cb debug_level fmt ap w
  = debug_entry MSG_SRC_HAMLIB debug_level fmt ap w.
Proof. reflexivity. Qed.

Lemma local_entry (debug_level : Z) (fmt : string) (ap : list printf_arg)
    (w : world) :
  grig_debug_local debug_level fmt ap w
  = debug_entry MSG_SRC_GRIG debug_level fmt ap w.
Proof. reflexivity. Qed.

(** A message above the threshold leaves the world as it is. *)
Lemma debug_entry_filtered (source : debug_msg_src_t) (debug_level : Z)
    (fmt : string) (ap : list printf_arg) (w : world) :
  dbglvl w < debug_level ->
  debug_entry source debug_level fmt ap w = (RIG_OK, w).
Proof.
  intros H. unfold debug_entry.
  destruct (debug_level >? dbglvl w) eqn:E; [reflexivity | lia].
Qed.

(** A message at or below the threshold is chomped, split and written
    line by line. *)
Lemma debug_entry_passed (source : debug_msg_src_t) (debug_level : Z)
    (fmt : string) (ap : list printf_arg) (w : world) :
  debug_level <= dbglvl w ->
  debug_entry source debug_level fmt ap w
  = (RIG_OK,
     emitted (records_from (clock w) (clock_reads w) source debug_level
                (lines_of_message (g_strdup_vprintf fmt ap))) w).
Proof.
  intros H. unfold debug_entry.
  destruct (debug_level >? dbglvl w) eqn:E; [lia |].
  f_equal. unfold for_upto, g_strv_length, lines_of_message.
  rewrite (for_from_lines (manage_debug_message source debug_level) []).
  apply fold_manage_debug_message.
Qed.

End HandlerFacts.

(** ** The severity filter *)
Section Filter.

Context {hamlib : rig_h} {header : grig_debug_h}.

Lemma set_level_in_range (level : Z) (w : world) :
  RIG_DEBUG_NONE <= level <= RIG_DEBUG_TRACE ->
  grig_debug_set_level level w = rig_set_debug level (assign_dbglvl level w).
Proof.
  intros H. unfold grig_debug_set_level.
  destruct ((level >=? RIG_DEBUG_NONE) && (level <=? RIG_DEBUG_TRACE))%bool eqn:E;
    [reflexivity | lia].
Qed.

Lemma set_level_out_of_range (level : Z) (w : world) :
  ~ RIG_DEBUG_NONE <= level <= RIG_DEBUG_TRACE ->
  grig_debug_set_level level w = w.
Proof.
  intros H. unfold grig_debug_set_level.
  destruct ((level >=? RIG_DEBUG_NONE) && (level <=? RIG_DEBUG_TRACE))%bool eqn:E;
    [lia | reflexivity].
Qed.

Lemma lines_of_message_nil (msg : string) :
  lines_of_message msg = [] <-> g_strchomp msg = EmptyString.
Proof. apply g_strsplit_set_nil. Qed.

(** C1, amended. After [grig_debug_set_level L] with [L] between
    RIG_DEBUG_NONE and RIG_DEBUG_TRACE, a call of [grig_debug_local] or
    [grig_debug_hamlib_cb] with a level above [L] writes nothing and leaves
    the state as it was; a call with a level at or below [L] whose
    formatted message is not empty after the removal of trailing
    whitespace writes at least one record, one per line of that message. *)
Theorem level_filter (L : Z) (w : world) (debug_level : Z) (fmt : string)
    (ap : list printf_arg) :
  RIG_DEBUG_NONE <= L <= RIG_DEBUG_TRACE ->
  let w' := grig_debug_set_level L w in
  grig_debug_get_level w' = L
  /\ (L < debug_level ->
        snd (grig_debug_local debug_level fmt ap w') = w'
        /\ snd (grig_debug_hamlib_cb debug_level fmt ap w') = w')
  /\ (debug_level <= L ->
      g_strchomp (g_strdup_vprintf fmt ap) <> EmptyString ->
      exists line lines,
        lines_of_message (g_strdup_vprintf fmt ap) = line :: lines
        /\ stderr (snd (grig_debug_local debug_level fmt ap w'))
           = stderr w' ++ records_from (clock w') (clock_reads w') MSG_SRC_GRIG
                             debug_level (line :: lines)
        /\ stderr (snd (grig_debug_hamlib_cb debug_level fmt ap w'))
           = stderr w' ++ records_from (clock w') (clock_reads w') MSG_SRC_HAMLIB
                             debug_level (line :: lines)).
Proof.
  intros HL w'.
  assert (Hlvl : dbglvl w' = L).
  { unfold w'. rewrite set_level_in_range by exact HL. reflexivity. }
  split; [exact Hlvl | split].
  - intros Habove. rewrite !local_entry, !hamlib_cb_entry.
    rewrite !debug_entry_filtered by lia. split; reflexivity.
  - intros Hbelow Hmsg.
    destruct (lines_of_message (g_strdup_vprintf fmt ap)) as [|line lines] eqn:El.
    + apply lines_of_message_nil in El. contradiction.
    + exists line, lines. split; [reflexivity |].
      rewrite !local_entry, !hamlib_cb_entry.
      rewrite !debug_entry_passed by lia. rewrite El. split; reflexivity.
Qed.

End Filter.

Section FilterRuns.

#[local] Existing Instance hamlib_values.
#[local] Existing Instance bar_separator.

(** With the threshold set to 3, a call at level 4 writes nothing and a
    call at level 2 writes its record. *)
Lemma level_filter_run :
  let w' := grig_debug_set_level 3 (initial_world sample_clock) in
  RIG_DEBUG_NONE <= 3 <= RIG_DEBUG_TRACE
  /\ stderr (snd (grig_debug_local 4 "polling" [] w')) = []
  /\ stderr (snd (grig_debug_hamlib_cb 2 "tuned" [] w'))
     = [("2024/02/29 12:00:00|HAMLIB|2|tuned" ++ LF)%string].
Proof.
  intros w'.
  assert (HL : RIG_DEBUG_NONE <= 3 <= RIG_DEBUG_TRACE) by (vm_compute; split; discriminate).
  split; [exact HL | split].
  - destruct (level_filter 3 (initial_world sample_clock) 4 "polling" [] HL)
      as (_ & Habove & _).
    destruct (Habove ltac:(reflexivity)) as [Hlocal _].
    fold w' in Hlocal. rewrite Hlocal. reflexivity.
  - destruct (level_filter 3 (initial_world sample_clock) 2 "tuned" [] HL)
      as (_ & _ & Hbelow).
    destruct (Hbelow ltac:(vm_compute; discriminate) ltac:(vm_compute; discriminate))
      as (line & lines & Hlines & _ & Hcb).
    fold w' in Hcb. rewrite Hcb, <- Hlines. vm_compute. reflexivity.
Defined.

(** C1 as worded fails: with the threshold at 5, a call at level 0 whose
    formatted message is a single line feed (hence not empty) writes
    nothing. *)
Lemma level_filter_as_worded_fails : ~ level_filter_as_worded.
Proof.
  intros H.
  destruct (H 5 (initial_world sample_clock) 0 LF []) as [_ Hbelow].
  - vm_compute. split; discriminate.
  - destruct Hbelow as [Hlocal _].
    + vm_compute. discriminate.
    + discriminate.
    + apply Hlocal. vm_compute. reflexivity.
Qed.

End FilterRuns.

(** ** The chomp and split pipeline *)
Section Pipeline.

Context {hamlib : rig_h} {header : grig_debug_h}.

(** C2, amended. For a message that passes the filter,
    [grig_debug_hamlib_cb] strips the trailing whitespace of the formatted
    message (space, tab, line feed, form feed and carriage return, so
    trailing newline characters in particular, and the stripped text never
    ends with one), splits the result on line feeds into the ordered
    sequence of its lines (joining them by line feeds gives the stripped
    text back, so empty lines in the middle are kept, and a non-empty text
    has one line more than it has line feeds; the split itself keeps an
    empty last segment after a final line feed), and hands each line in
    order to [manage_debug_message] with the source HAMLIB. *)
Theorem receive_from_library_pipeline (w : world) (debug_level : Z)
    (fmt : string) (ap : list printf_arg) :
  debug_level <= dbglvl w ->
  let msg := g_strdup_vprintf fmt ap in
  let lines := g_strsplit_set (g_strchomp msg) LF 0 in
  g_strchomp msg = strip_trailing g_ascii_isspace msg
  /\ (forall c, is_newline c = true -> g_ascii_isspace c = true)
  /\ (exists ws, msg = (g_strchomp msg ++ ws)%string
                 /\ all_chars g_ascii_isspace ws = true)
  /\ (forall p c, g_strchomp msg = (p ++ String c EmptyString)%string ->
                  g_ascii_isspace c = false)
  /\ join_lines lines = g_strchomp msg
  /\ Forall (fun line => no_newline line = true) lines
  /\ List.length lines
     = match g_strchomp msg with
       | EmptyString => O
       | String _ _ => S (count_newlines (g_strchomp msg))
       end
  /\ (forall s, s <> EmptyString ->
                g_strsplit_set (s ++ LF) LF 0 = g_strsplit_set s LF 0 ++ [EmptyString])
  /\ grig_debug_hamlib_cb debug_level fmt ap w
     = (RIG_OK,
        fold_left (fun w line => manage_debug_message MSG_SRC_HAMLIB debug_level line w)
          lines w)
  /\ stderr (snd (grig_debug_hamlib_cb debug_level fmt ap w))
     = stderr w ++ records_from (clock w) (clock_reads w) MSG_SRC_HAMLIB
                     debug_level lines.
Proof.
  intros Hlvl msg lines.
  split; [apply g_strchomp_strip |].
  split.
  { intros c Hc. unfold is_newline in Hc. apply Ascii.eqb_eq in Hc. now subst c. }
  split.
  { rewrite g_strchomp_strip. apply strip_trailing_suffix. }
  split.
  { intros p c Hp. rewrite g_strchomp_strip in Hp.
    eapply strip_trailing_last; eassumption. }
  split; [apply g_strsplit_set_join |].
  split; [apply g_strsplit_set_lines |].
  split; [apply g_strsplit_set_length |].
  split; [apply g_strsplit_set_trailing |].
  rewrite hamlib_cb_entry. rewrite debug_entry_passed by exact Hlvl.
  fold msg. unfold lines_of_message. fold lines. split.
  - now rewrite fold_manage_debug_message.
  - reflexivity.
Qed.

End Pipeline.

Section PipelineRuns.

#[local] Existing Instance hamlib_values.
#[local] Existing Instance bar_separator.

(** The callback writes one record for it. *)
Lemma receive_from_library_pipeline_run :
  let w := grig_debug_set_level 5 (initial_world sample_clock) in
  0 <= dbglvl w
  /\ stderr (snd (grig_debug_hamlib_cb 0 blank_last_line [] w))
     = [("2024/02/29 12:00:00|HAMLIB|0|a" ++ LF)%string].
Proof.
  intros w.
  assert (Hlvl : 0 <= dbglvl w) by (vm_compute; discriminate).
  split; [exact Hlvl |].
  destruct (receive_from_library_pipeline w 0 blank_last_line [] Hlvl)
    as (_ & _ & _ & _ & _ & _ & _ & _ & _ & Hout).
  rewrite Hout. vm_compute. reflexivity.
Defined.

(** C2 as worded fails: stripping newline characters only would leave
    the blank last line of [blank_last_line] and give two records, where
    the callback writes one. *)
Lemma receive_pipeline_as_worded_fails : ~ receive_pipeline_as_worded.
Proof.
  intros H.
  specialize (H (grig_debug_set_level 5 (initial_world sample_clock)) 0
                blank_last_line []).
  assert (Hlvl : 0 <= dbglvl (grig_debug_set_level 5 (initial_world sample_clock)))
    by (vm_compute; discriminate).
  specialize (H Hlvl). apply (f_equal (@List.length string)) in H.
  vm_compute in H. discriminate.
Qed.

End PipelineRuns.

(** ** Multi-line messages *)
Section MultiLine.

Context {hamlib : rig_h} {header : grig_debug_h}.

(** C3. For a message that passes the filter, a formatted text
    "line1\nline2\n" gives exactly two records, for "line1" and "line2"
    (no third one for the final line feed), and a formatted text
    "line1\n\nline2" gives exactly three records, the middle one with an
    empty message; this holds for [grig_debug_hamlib_cb] and for
    [grig_debug_local], each with its own source name. *)
Theorem multi_line_records (w : world) (debug_level : Z) (fmt : string)
    (ap : list printf_arg) :
  debug_level <= dbglvl w ->
  let t := clock w in
  let n := clock_reads w in
  (g_strdup_vprintf fmt ap = two_lines_and_newline ->
     stderr (snd (grig_debug_hamlib_cb debug_level fmt ap w))
     = stderr w ++ [debug_record (t n) MSG_SRC_HAMLIB debug_level "line1";
                    debug_record (t (S n)) MSG_SRC_HAMLIB debug_level "line2"]
     /\ stderr (snd (grig_debug_local debug_level fmt ap w))
        = stderr w ++ [debug_record (t n) MSG_SRC_GRIG debug_level "line1";
                       debug_record (t (S n)) MSG_SRC_GRIG debug_level "line2"])
  /\ (g_strdup_vprintf fmt ap = lines_around_empty_line ->
        stderr (snd (grig_debug_hamlib_cb debug_level fmt ap w))
        = stderr w ++ [debug_record (t n) MSG_SRC_HAMLIB debug_level "line1";
                       debug_record (t (S n)) MSG_SRC_HAMLIB debug_level EmptyString;
                       debug_record (t (S (S n))) MSG_SRC_HAMLIB debug_level "line2"]
        /\ stderr (snd (grig_debug_local debug_level fmt ap w))
           = stderr w ++ [debug_record (t n) MSG_SRC_GRIG debug_level "line1";
                          debug_record (t (S n)) MSG_SRC_GRIG debug_level EmptyString;
                          debug_record (t (S (S n))) MSG_SRC_GRIG debug_level "line2"]).
Proof.
  intros Hlvl t n. rewrite !local_entry, !hamlib_cb_entry.
  rewrite !debug_entry_passed by exact Hlvl.
  split; intros ->.
  - assert (El : lines_of_message two_lines_and_newline = ["line1"; "line2"]%string)
      by (vm_compute; reflexivity).
    rewrite El. split; reflexivity.
  - assert (El : lines_of_message lines_around_empty_line = ["line1"; EmptyString; "line2"]%string)
      by (vm_compute; reflexivity).
    rewrite El. split; reflexivity.
Qed.

End MultiLine.

Section MultiLineRuns.

#[local] Existing Instance hamlib_values.
#[local] Existing Instance bar_separator.

(** Both messages through the library callback at level 4, threshold 5. *)
Lemma multi_line_records_run :
  let w := grig_debug_set_level 5 (initial_world sample_clock) in
  4 <= dbglvl w
  /\ stderr (snd (grig_debug_hamlib_cb 4 two_lines_and_newline [] w))
     = [("2024/02/29 12:00:00|HAMLIB|4|line1" ++ LF)%string;
        ("2024/02/29 12:00:01|HAMLIB|4|line2" ++ LF)%string]
  /\ stderr (snd (grig_debug_local 4 lines_around_empty_line [] w))
     = [("2024/02/29 12:00:00|GRIG|4|line1" ++ LF)%string;
        ("2024/02/29 12:00:01|GRIG|4|" ++ LF)%string;
        ("2024/02/29 12:00:02|GRIG|4|line2" ++ LF)%string].
Proof.
  intros w.
  assert (Hlvl : 4 <= dbglvl w) by (vm_compute; discriminate).
  split; [exact Hlvl | split].
  - destruct (multi_line_records w 4 two_lines_and_newline [] Hlvl)
      as [Htwo _].
    destruct (Htwo ltac:(reflexivity)) as [Hcb _].
    rewrite Hcb. vm_compute. reflexivity.
  - destruct (multi_line_records w 4 lines_around_empty_line [] Hlvl)
      as [_ Hthree].
    destruct (Hthree ltac:(reflexivity)) as [_ Hlocal].
    rewrite Hlocal. vm_compute. reflexivity.
Defined.

End MultiLineRuns.

(** ** The threshold and the log file name *)
Section Threshold.

Context {hamlib : rig_h} {header : grig_debug_h}.

Lemma debug_entry_emitted (source : debug_msg_src_t) (debug_level : Z)
    (fmt : string) (ap : list printf_arg) (w : world) :
  exists recs, snd (debug_entry source debug_level fmt ap w) = emitted recs w.
Proof.
  destruct (Z_lt_le_dec (dbglvl w) debug_level) as [H | H].
  - exists []. rewrite debug_entry_filtered by exact H. now rewrite emitted_nil.
  - eexists. rewrite debug_entry_passed by exact H. reflexivity.
Qed.

(** No call but [grig_debug_set_level] writes the threshold, and no call
    at all writes the log file name or replaces the clock. *)
Lemma run_call_globals (c : call) (w : world) :
  logfname (run_call c w) = logfname w
  /\ clock (run_call c w) = clock w
  /\ (not_set_level c -> dbglvl (run_call c w) = dbglvl w).
Proof.
  destruct c as [filename | | lvl fmt ap | lvl fmt ap | | level |];
    cbn [run_call not_set_level].
  - unfold grig_debug_init. rewrite local_entry.
    destruct (debug_entry_emitted MSG_SRC_GRIG RIG_DEBUG_VERBOSE
                (gettext "%s: Debug handler initialised.")
                [ArgStr "grig_debug_init"]
                (rig_set_debug_callback true
                   match filename with Some _ => w | None => w end)) as [recs ->].
    destruct filename; repeat split; reflexivity.
  - unfold grig_debug_close. rewrite local_entry.
    destruct (debug_entry_emitted MSG_SRC_GRIG RIG_DEBUG_VERBOSE
                (gettext "%s: Shutting down debug handler.")
                [ArgStr "grig_debug_close"] w) as [recs ->].
    repeat split; reflexivity.
  - rewrite hamlib_cb_entry.
    destruct (debug_entry_emitted MSG_SRC_HAMLIB lvl fmt ap w) as [recs ->].
    repeat split; reflexivity.
  - rewrite local_entry.
    destruct (debug_entry_emitted MSG_SRC_GRIG lvl fmt ap w) as [recs ->].
    repeat split; reflexivity.
  - repeat split; reflexivity.
  - unfold grig_debug_set_level.
    destruct ((level >=? RIG_DEBUG_NONE) && (level <=? RIG_DEBUG_TRACE))%bool;
      repeat split; try reflexivity; contradiction.
  - repeat split; reflexivity.
Qed.

Lemma set_level_result (level : Z) (w : world) :
  (RIG_DEBUG_NONE <= level <= RIG_DEBUG_TRACE
   /\ grig_debug_get_level (grig_debug_set_level level w) = level)
  \/ (~ RIG_DEBUG_NONE <= level <= RIG_DEBUG_TRACE
      /\ grig_debug_set_level level w = w).
Proof.
  destruct (Z_le_dec RIG_DEBUG_NONE level) as [H1 | H1];
    [destruct (Z_le_dec level RIG_DEBUG_TRACE) as [H2 | H2] |].
  - left. split; [lia |]. rewrite set_level_in_range by lia. reflexivity.
  - right. split; [lia |]. apply set_level_out_of_range. lia.
  - right. split; [lia |]. apply set_level_out_of_range. lia.
Qed.

Lemma run_calls_snoc (cs : list call) (c : call) (w : world) :
  run_calls (cs ++ [c]) w = run_call c (run_calls cs w).
Proof. unfold run_calls. now rewrite fold_left_app. Qed.

(** C4. [grig_debug_set_level] stores its argument if and only if it lies
    between RIG_DEBUG_NONE and RIG_DEBUG_TRACE: a value in the range is
    what [grig_debug_get_level] returns afterwards, a value outside the
    range leaves the whole state unchanged (the threshold read by
    [grig_debug_get_level] included), and after any sequence of calls from
    the initial state the threshold lies in the range. *)
Theorem set_level_valid_range :
  RIG_DEBUG_NONE <= RIG_DEBUG_TRACE ->
  (forall level w,
      RIG_DEBUG_NONE <= level <= RIG_DEBUG_TRACE ->
      grig_debug_get_level (grig_debug_set_level level w) = level)
  /\ (forall level w,
        ~ RIG_DEBUG_NONE <= level <= RIG_DEBUG_TRACE ->
        grig_debug_set_level level w = w
        /\ grig_debug_get_level (grig_debug_set_level level w)
           = grig_debug_get_level w)
  /\ (forall level w,
        grig_debug_get_level (grig_debug_set_level level w)
        <> grig_debug_get_level w ->
        RIG_DEBUG_NONE <= level <= RIG_DEBUG_TRACE)
  /\ (forall clk calls,
        RIG_DEBUG_NONE
        <= grig_debug_get_level (run_calls calls (initial_world clk))
        <= RIG_DEBUG_TRACE).
Proof.
  intros Hrange. split; [| split; [| split]].
  - intros level w H. rewrite set_level_in_range by exact H. reflexivity.
  - intros level w H. rewrite set_level_out_of_range by exact H. now split.
  - intros level w Hchg.
    destruct (set_level_result level w) as [[H _] | [_ H]]; [exact H |].
    rewrite H in Hchg. congruence.
  - intros clk calls. induction calls as [|c calls IH] using rev_ind.
    + cbn. lia.
    + rewrite run_calls_snoc.
      set (w := run_calls calls (initial_world clk)) in *.
      unfold grig_debug_get_level in *.
      destruct (run_call_globals c w) as (_ & _ & Hkeep).
      destruct c as [filename | | lvl fmt ap | lvl fmt ap | | level |];
        try (rewrite Hkeep by exact I; exact IH).
      cbn [run_call].
      destruct (set_level_result level w) as [[H Hl] | [_ Hl]].
      * unfold grig_debug_get_level in Hl. rewrite Hl. exact H.
      * rewrite Hl. exact IH.
Qed.

End Threshold.

Section ThresholdRuns.

#[local] Existing Instance hamlib_values.
#[local] Existing Instance bar_separator.

(** Setting 3, then the out-of-range values 9 and -1: the threshold stays 3. *)
Lemma set_level_valid_range_run :
  let w := grig_debug_set_level 3 (initial_world sample_clock) in
  RIG_DEBUG_NONE <= RIG_DEBUG_TRACE
  /\ grig_debug_get_level w = 3
  /\ grig_debug_get_level (grig_debug_set_level 9 w) = 3
  /\ grig_debug_get_level (grig_debug_set_level (-1) w) = 3.
Proof.
  intros w.
  assert (Hrange : RIG_DEBUG_NONE <= RIG_DEBUG_TRACE) by (vm_compute; discriminate).
  destruct (set_level_valid_range Hrange) as (Hin & Hout & _ & _).
  split; [exact Hrange | split; [| split]].
  - apply Hin. vm_compute. split; discriminate.
  - destruct (Hout 9 w) as [_ ->]; [| reflexivity].
    vm_compute. intros [_ H]. now apply H.
  - destruct (Hout (-1) w) as [_ ->]; [| reflexivity].
    vm_compute. intros [H _]. now apply H.
Defined.

End ThresholdRuns.

Section LogFile.

Context {hamlib : rig_h} {header : grig_debug_h}.

(** C5, on the code. [grig_debug_init] does not store its argument: the
    log file name read by [grig_debug_get_log_file] is the same before and
    after it, so from the initial state every sequence of calls, with or
    without a path given to [grig_debug_init], ends with
    [grig_debug_get_log_file] returning NULL. *)
Theorem get_log_file_after_init :
  (forall filename w,
      grig_debug_get_log_file (grig_debug_init filename w)
      = grig_debug_get_log_file w)
  /\ (forall clk calls,
        grig_debug_get_log_file (run_calls calls (initial_world clk)) = None)
  /\ grig_debug_get_log_file
       (grig_debug_init (Some "/tmp/grig.log") (initial_world sample_clock))
     = None.
Proof.
  assert (Hinit : forall filename w,
             grig_debug_get_log_file (grig_debug_init filename w)
             = grig_debug_get_log_file w).
  { intros filename w. unfold grig_debug_get_log_file.
    destruct (run_call_globals (call_init filename) w) as (Hname & _).
    cbn [run_call] in Hname. now rewrite Hname. }
  split; [exact Hinit | split].
  - intros clk calls. induction calls as [|c calls IH] using rev_ind.
    + reflexivity.
    + rewrite run_calls_snoc. unfold grig_debug_get_log_file in *.
      destruct (run_call_globals c (run_calls calls (initial_world clk)))
        as (Hname & _).
      rewrite Hname. exact IH.
  - rewrite Hinit. reflexivity.
Qed.

End LogFile.

(** ** Initialisation and shutdown *)
Section InitClose.

Context {hamlib : rig_h} {header : grig_debug_h}.

Lemma init_message_lines :
  lines_of_message
    (g_strdup_vprintf (gettext "%s: Debug handler initialised.")
       [ArgStr "grig_debug_init"])
  = ["grig_debug_init: Debug handler initialised."%string].
Proof. vm_compute. reflexivity. Qed.

Lemma close_message_lines :
  lines_of_message
    (g_strdup_vprintf (gettext "%s: Shutting down debug handler.")
       [ArgStr "grig_debug_close"])
  = ["grig_debug_close: Shutting down debug handler."%string].
Proof. vm_compute. reflexivity. Qed.

Lemma init_passed (filename : option string) (w : world) :
  RIG_DEBUG_VERBOSE <= dbglvl w ->
  grig_debug_init filename w
  = emitted [debug_record (clock w (clock_reads w)) MSG_SRC_GRIG RIG_DEBUG_VERBOSE
               "grig_debug_init: Debug handler initialised."]
      (rig_set_debug_callback true w).
Proof.
  intros H. unfold grig_debug_init. rewrite local_entry.
  replace (match filename with Some _ => w | None => w end) with w
    by now destruct filename.
  rewrite debug_entry_passed by exact H.
  rewrite init_message_lines. reflexivity.
Qed.

Lemma init_filtered (filename : option string) (w : world) :
  dbglvl w < RIG_DEBUG_VERBOSE ->
  grig_debug_init filename w = rig_set_debug_callback true w.
Proof.
  intros H. unfold grig_debug_init. rewrite local_entry.
  replace (match filename with Some _ => w | None => w end) with w
    by now destruct filename.
  rewrite debug_entry_filtered by exact H. reflexivity.
Qed.

Lemma close_passed (w : world) :
  RIG_DEBUG_VERBOSE <= dbglvl w ->
  grig_debug_close w
  = rig_set_debug_callback false
      (emitted [debug_record (clock w (clock_reads w)) MSG_SRC_GRIG RIG_DEBUG_VERBOSE
                  "grig_debug_close: Shutting down debug handler."] w).
Proof.
  intros H. unfold grig_debug_close. rewrite local_entry.
  rewrite debug_entry_passed by exact H.
  rewrite close_message_lines. reflexivity.
Qed.

Lemma close_filtered (w : world) :
  dbglvl w < RIG_DEBUG_VERBOSE ->
  grig_debug_close w = rig_set_debug_callback false w.
Proof.
  intros H. unfold grig_debug_close. rewrite local_entry.
  rewrite debug_entry_filtered by exact H. reflexivity.
Qed.

(** C6. [grig_debug_init] followed at once by [grig_debug_close] writes
    exactly two records, both from the source GRIG at level
    RIG_DEBUG_VERBOSE, the first saying that the debug handler is
    initialised and the second that it is shutting down, when the
    threshold is at or above RIG_DEBUG_VERBOSE; it writes nothing when the
    threshold is below RIG_DEBUG_VERBOSE. *)
Theorem init_then_close_records (filename : option string) (w : world) :
  (RIG_DEBUG_VERBOSE <= dbglvl w ->
     stderr (grig_debug_close (grig_debug_init filename w))
     = stderr w
         ++ [debug_record (clock w (clock_reads w)) MSG_SRC_GRIG RIG_DEBUG_VERBOSE
               "grig_debug_init: Debug handler initialised.";
             debug_record (clock w (S (clock_reads w))) MSG_SRC_GRIG RIG_DEBUG_VERBOSE
               "grig_debug_close: Shutting down debug handler."])
  /\ (dbglvl w < RIG_DEBUG_VERBOSE ->
        stderr (grig_debug_close (grig_debug_init filename w)) = stderr w).
Proof.
  split; intros H.
  - rewrite init_passed by exact H. rewrite close_passed by exact H.
    cbn [stderr emitted rig_set_debug_callback clock clock_reads List.length].
    rewrite <- app_assoc, Nat.add_1_r. reflexivity.
  - rewrite init_filtered by exact H. rewrite close_filtered by exact H.
    reflexivity.
Qed.

End InitClose.

Section InitCloseRuns.

#[local] Existing Instance hamlib_values.
#[local] Existing Instance bar_separator.

(** [init] then [close] at the thresholds 4 and 3. *)
Lemma init_then_close_records_run :
  let verbose := grig_debug_set_level 4 (initial_world sample_clock) in
  let warn := grig_debug_set_level 3 (initial_world sample_clock) in
  stderr (grig_debug_close (grig_debug_init None verbose))
  = [("2024/02/29 12:00:00|GRIG|4|grig_debug_init: Debug handler initialised." ++ LF)%string;
     ("2024/02/29 12:00:01|GRIG|4|grig_debug_close: Shutting down debug handler." ++ LF)%string]
  /\ stderr (grig_debug_close (grig_debug_init (Some "grig.log") warn)) = [].
Proof.
  intros verbose warn. split.
  - destruct (init_then_close_records None verbose) as [Hpass _].
    rewrite Hpass by (vm_compute; discriminate). vm_compute. reflexivity.
  - destruct (init_then_close_records (Some "grig.log") warn) as [_ Hfilter].
    rewrite Hfilter by (vm_compute; reflexivity). reflexivity.
Defined.

End InitCloseRuns.

(** ** The layout of a record *)
Section Layout.

Context {hamlib : rig_h} {header : grig_debug_h}.

Lemma records_from_of_clock (clk : nat -> GDateTime) (n : nat)
    (source : debug_msg_src_t) (debug_level : Z) (lines : list string) :
  Forall (fun line => no_newline line = true) lines ->
  Forall (record_of_clock clk) (records_from clk n source debug_level lines).
Proof.
  intros H. revert n. induction H as [|line lines Hline _ IH]; intros n.
  - constructor.
  - cbn [records_from]. constructor; [| apply IH].
    exists n, source, debug_level, line. now split.
Qed.

Lemma debug_entry_records (source : debug_msg_src_t) (debug_level : Z)
    (fmt : string) (ap : list printf_arg) (w : world) :
  exists recs,
    snd (debug_entry source debug_level fmt ap w) = emitted recs w
    /\ Forall (record_of_clock (clock w)) recs.
Proof.
  destruct (Z_lt_le_dec (dbglvl w) debug_level) as [H | H].
  - exists []. rewrite debug_entry_filtered by exact H.
    split; [now rewrite emitted_nil | constructor].
  - eexists. rewrite debug_entry_passed by exact H.
    split; [reflexivity |].
    apply records_from_of_clock, g_strsplit_set_lines.
Qed.

(** Whatever a call writes is a sequence of records of lines. *)
Lemma run_call_stderr (c : call) (w : world) :
  exists recs,
    stderr (run_call c w) = stderr w ++ recs
    /\ Forall (record_of_clock (clock w)) recs.
Proof.
  destruct c as [filename | | lvl fmt ap | lvl fmt ap | | level |]; cbn [run_call].
  - unfold grig_debug_init. rewrite local_entry.
    replace (match filename with Some _ => w | None => w end) with w
      by now destruct filename.
    destruct (debug_entry_records MSG_SRC_GRIG RIG_DEBUG_VERBOSE
                (gettext "%s: Debug handler initialised.")
                [ArgStr "grig_debug_init"] (rig_set_debug_callback true w))
      as (recs & -> & Hrecs).
    exists recs. split; [reflexivity | exact Hrecs].
  - unfold grig_debug_close. rewrite local_entry.
    destruct (debug_entry_records MSG_SRC_GRIG RIG_DEBUG_VERBOSE
                (gettext "%s: Shutting down debug handler.")
                [ArgStr "grig_debug_close"] w) as (recs & -> & Hrecs).
    exists recs. split; [reflexivity | exact Hrecs].
  - rewrite hamlib_cb_entry.
    destruct (debug_entry_records MSG_SRC_HAMLIB lvl fmt ap w) as (recs & -> & Hrecs).
    exists recs. split; [reflexivity | exact Hrecs].
  - rewrite local_entry.
    destruct (debug_entry_records MSG_SRC_GRIG lvl fmt ap w) as (recs & -> & Hrecs).
    exists recs. split; [reflexivity | exact Hrecs].
  - exists []. split; [now rewrite app_nil_r | constructor].
  - exists []. split; [| constructor]. rewrite app_nil_r.
    unfold grig_debug_set_level.
    now destruct ((level >=? RIG_DEBUG_NONE) && (level <=? RIG_DEBUG_TRACE))%bool.
  - exists []. split; [now rewrite app_nil_r | constructor].
Qed.

Lemma run_calls_stderr (clk : nat -> GDateTime) (calls : list call) :
  clock (run_calls calls (initial_world clk)) = clk
  /\ Forall (record_of_clock clk) (stderr (run_calls calls (initial_world clk))).
Proof.
  induction calls as [|c calls [IHclk IHrecs]] using rev_ind.
  - split; [reflexivity | constructor].
  - rewrite run_calls_snoc.
    set (w := run_calls calls (initial_world clk)) in *.
    destruct (run_call_globals c w) as (_ & Hclk & _).
    destruct (run_call_stderr c w) as (recs & -> & Hrecs).
    split; [congruence |].
    apply Forall_app. split; [exact IHrecs | now rewrite <- IHclk].
Qed.

Lemma source_name_listed (source : debug_msg_src_t) :
  In (nth (src_index source) SRC_TO_STR EmptyString) ["NONE"; "HAMLIB"; "GRIG"]%string.
Proof. destruct source; cbn; auto. Qed.

Lemma source_name_no_newline (source : debug_msg_src_t) :
  no_newline (nth (src_index source) SRC_TO_STR EmptyString) = true.
Proof. destruct source; reflexivity. Qed.

(** C7. Each call of [manage_debug_message] appends to standard error one
    text made of the timestamp, the separator, the source name (one of
    NONE, HAMLIB, GRIG), the separator, the level in decimal, the
    separator, the message and a line feed; the timestamp of a clock
    reading is laid out as YYYY/MM/DD HH:MM:SS; every text on standard
    error after any sequence of calls is such a record and is one line, its
    only line feed being the last byte (for a separator without line
    feed); and with the threshold at 2 the call
    [grig_debug_local (1, "device %s not found", "TS-2000")] writes the one
    record timestamp, GRIG, 1, "device TS-2000 not found". *)
Theorem record_layout :
  (forall w source debug_level message,
      stderr (manage_debug_message source debug_level message w)
      = stderr w
          ++ [(g_date_time_format (clock w (clock_reads w)) "%Y/%m/%d %H:%M:%S"
                 ++ GRIG_DEBUG_SEPARATOR
                 ++ nth (src_index source) SRC_TO_STR EmptyString
                 ++ GRIG_DEBUG_SEPARATOR
                 ++ format_int debug_level
                 ++ GRIG_DEBUG_SEPARATOR
                 ++ message ++ LF)%string]
      /\ In (nth (src_index source) SRC_TO_STR EmptyString)
            ["NONE"; "HAMLIB"; "GRIG"]%string)
  /\ (forall t, wall_clock_time t ->
        g_date_time_format t "%Y/%m/%d %H:%M:%S" = YYYY_MM_DD_HH_MM_SS t)
  /\ (forall clk,
        (forall n, wall_clock_time (clk n)) ->
        no_newline GRIG_DEBUG_SEPARATOR = true ->
        forall calls r,
          In r (stderr (run_calls calls (initial_world clk))) ->
          exists n source debug_level message body,
            body = (YYYY_MM_DD_HH_MM_SS (clk n)
                      ++ GRIG_DEBUG_SEPARATOR
                      ++ nth (src_index source) SRC_TO_STR EmptyString
                      ++ GRIG_DEBUG_SEPARATOR
                      ++ format_int debug_level
                      ++ GRIG_DEBUG_SEPARATOR
                      ++ message)%string
            /\ r = (body ++ LF)%string
            /\ no_newline body = true
            /\ count_newlines r = 1%nat)
  /\ (forall w,
        dbglvl w = 2 ->
        stderr (snd (grig_debug_local 1 "device %s not found" [ArgStr "TS-2000"] w))
        = stderr w
            ++ [(g_date_time_format (clock w (clock_reads w)) "%Y/%m/%d %H:%M:%S"
                   ++ GRIG_DEBUG_SEPARATOR ++ "GRIG" ++ GRIG_DEBUG_SEPARATOR
                   ++ "1" ++ GRIG_DEBUG_SEPARATOR
                   ++ "device TS-2000 not found" ++ LF)%string]).
Proof.
  split; [| split; [| split]].
  - intros w source debug_level message. split; [| apply source_name_listed].
    rewrite manage_debug_message_record. reflexivity.
  - intros t Ht. apply g_date_time_format_layout, Ht.
  - intros clk Hclk Hsep calls r Hr.
    destruct (run_calls_stderr clk calls) as [_ Hall].
    rewrite Forall_forall in Hall.
    destruct (Hall r Hr) as (n & source & debug_level & message & -> & Hmsg).
    destruct (g_date_time_format_layout (clk n) (Hclk n)) as [Ets Nts].
    exists n, source, debug_level, message. eexists. split; [reflexivity |].
    assert (Hbody : no_newline
                      (YYYY_MM_DD_HH_MM_SS (clk n) ++ GRIG_DEBUG_SEPARATOR
                         ++ nth (src_index source) SRC_TO_STR EmptyString
                         ++ GRIG_DEBUG_SEPARATOR ++ format_int debug_level
                         ++ GRIG_DEBUG_SEPARATOR ++ message) = true).
    { rewrite !no_newline_append, Nts, Hsep, source_name_no_newline,
        format_int_no_newline, Hmsg. reflexivity. }
    assert (Hrec : debug_record (clk n) source debug_level message
                   = ((YYYY_MM_DD_HH_MM_SS (clk n) ++ GRIG_DEBUG_SEPARATOR
                         ++ nth (src_index source) SRC_TO_STR EmptyString
                         ++ GRIG_DEBUG_SEPARATOR ++ format_int debug_level
                         ++ GRIG_DEBUG_SEPARATOR ++ message) ++ LF)%string).
    { unfold debug_record. rewrite Ets, !append_assoc. reflexivity. }
    split; [exact Hrec | split; [exact Hbody |]].
    rewrite Hrec, count_newlines_append, (no_newline_count _ Hbody). reflexivity.
  - intros w Hw. rewrite local_entry.
    rewrite debug_entry_passed by lia.
    assert (El : lines_of_message
                   (g_strdup_vprintf "device %s not found" [ArgStr "TS-2000"])
                 = ["device TS-2000 not found"%string])
      by (vm_compute; reflexivity).
    rewrite El. reflexivity.
Qed.

End Layout.

Section LayoutRuns.

#[local] Existing Instance hamlib_values.
#[local] Existing Instance bar_separator.

Lemma sample_clock_wall_clock (n : nat) : wall_clock_time (sample_clock n).
Proof.
  unfold wall_clock_time, sample_clock. cbn [year month day_of_month hour minute second].
  pose proof (Z.mod_pos_bound (Z.of_nat n) 60). lia.
Qed.

(** The spec's example with the separator "|" and the threshold 2: the
    record written, its single line feed, and the silence of a call at
    level 5. *)
Lemma record_layout_run :
  let w := grig_debug_set_level 2 (initial_world sample_clock) in
  let r := ("2024/02/29 12:00:00|GRIG|1|device TS-2000 not found" ++ LF)%string in
  stderr (snd (grig_debug_local 1 "device %s not found" [ArgStr "TS-2000"] w)) = [r]
  /\ no_newline GRIG_DEBUG_SEPARATOR = true
  /\ count_newlines r = 1%nat
  /\ stderr (snd (grig_debug_local 5 "polling" [] w)) = [].
Proof.
  intros w r.
  destruct record_layout as (_ & _ & Hlines & Hexample).
  split; [| split; [| split]].
  - rewrite (Hexample w) by reflexivity. vm_compute. reflexivity.
  - reflexivity.
  - destruct (Hlines sample_clock sample_clock_wall_clock eq_refl
                [call_set_level 2;
                 call_local 1 "device %s not found" [ArgStr "TS-2000"]] r)
      as (_ & _ & _ & _ & _ & _ & _ & _ & Hcount).
    + vm_compute. left. reflexivity.
    + exact Hcount.
  - vm_compute. reflexivity.
Defined.

End LayoutRuns.

(** ** The status returned to the library *)
Section Status.

Context {hamlib : rig_h} {header : grig_debug_h}.

(** C8. [grig_debug_hamlib_cb] returns RIG_OK on every call, whether the
    message is above the threshold (and dropped) or processed; the model
    of the function is total, so there is no other outcome. *)
Theorem hamlib_cb_returns_ok (debug_level : Z) (fmt : string)
    (ap : list printf_arg) (w : world) :
  fst (grig_debug_hamlib_cb debug_level fmt ap w) = RIG_OK.
Proof.
  rewrite hamlib_cb_entry. unfold debug_entry.
  destruct (debug_level >? dbglvl w); reflexivity.
Qed.

(** C9. When the formatted message is empty after the removal of its
    trailing whitespace (it is then made of whitespace only, as an empty
    template or one that formats to line feeds), [grig_debug_local] and
    [grig_debug_hamlib_cb] split it into no line at all and write no record,
    whatever the level and the threshold: the state after the call is the
    state before. *)
Theorem empty_message_no_record (debug_level : Z) (fmt : string)
    (ap : list printf_arg) (w : world) :
  g_strchomp (g_strdup_vprintf fmt ap) = EmptyString ->
  all_chars g_ascii_isspace (g_strdup_vprintf fmt ap) = true
  /\ g_strsplit_set (g_strchomp (g_strdup_vprintf fmt ap)) LF 0 = []
  /\ grig_debug_local debug_level fmt ap w = (RIG_OK, w)
  /\ grig_debug_hamlib_cb debug_level fmt ap w = (RIG_OK, w).
Proof.
  intros Hmsg.
  assert (Hlines : lines_of_message (g_strdup_vprintf fmt ap) = [])
    by now apply lines_of_message_nil.
  split; [now apply g_strchomp_empty_iff |].
  split; [exact Hlines |].
  rewrite !local_entry, !hamlib_cb_entry.
  destruct (Z_lt_le_dec (dbglvl w) debug_level) as [H | H].
  - rewrite !debug_entry_filtered by exact H. now split.
  - rewrite !debug_entry_passed by exact H. rewrite Hlines.
    cbn [records_from]. rewrite emitted_nil. now split.
Qed.

End Status.

Section StatusRuns.

#[local] Existing Instance hamlib_values.
#[local] Existing Instance bar_separator.

(** An empty template and a template of two line feeds, at level 0 with
    the threshold at 5. *)
Lemma empty_message_no_record_run :
  let w := grig_debug_set_level 5 (initial_world sample_clock) in
  g_strchomp (g_strdup_vprintf (LF ++ LF) []) = EmptyString
  /\ stderr (snd (grig_debug_local 0 (LF ++ LF) [] w)) = []
  /\ stderr (snd (grig_debug_hamlib_cb 0 EmptyString [] w)) = [].
Proof.
  intros w.
  assert (Hmsg : g_strchomp (g_strdup_vprintf (LF ++ LF) []) = EmptyString)
    by reflexivity.
  split; [exact Hmsg | split].
  - destruct (empty_message_no_record 0 (LF ++ LF) [] w Hmsg) as (_ & _ & -> & _).
    reflexivity.
  - destruct (empty_message_no_record 0 EmptyString [] w eq_refl) as (_ & _ & _ & ->).
    reflexivity.
Defined.

End StatusRuns.

(** ** The initial threshold *)
Section InitialThreshold.

Context {hamlib : rig_h} {header : grig_debug_h}.

(** At the threshold RIG_DEBUG_NONE a call that does not set the level
    and logs above RIG_DEBUG_NONE writes nothing. *)
Lemma run_call_silent (c : call) (w : world) :
  RIG_DEBUG_NONE < RIG_DEBUG_VERBOSE ->
  dbglvl w = RIG_DEBUG_NONE ->
  not_set_level c -> logs_above RIG_DEBUG_NONE c ->
  stderr (run_call c w) = stderr w /\ dbglvl (run_call c w) = RIG_DEBUG_NONE.
Proof.
  intros Hverbose Hw Hset Hlog.
  destruct (run_call_globals c w) as (_ & _ & Hkeep).
  split; [| now rewrite Hkeep].
  destruct c as [filename | | lvl fmt ap | lvl fmt ap | | level |];
    cbn [run_call not_set_level logs_above] in *.
  - rewrite init_filtered by lia. reflexivity.
  - rewrite close_filtered by lia. reflexivity.
  - rewrite hamlib_cb_entry. rewrite debug_entry_filtered by lia. reflexivity.
  - rewrite local_entry. rewrite debug_entry_filtered by lia. reflexivity.
  - reflexivity.
  - contradiction.
  - reflexivity.
Qed.

(** C10, amended. The threshold starts at RIG_DEBUG_NONE and stays there
    until [grig_debug_set_level] is called. In every state reached before
    such a call, whatever was logged on the way, a message logged at a
    level above RIG_DEBUG_NONE is dropped and leaves the state as it is, and
    so are the RIG_DEBUG_VERBOSE confirmations of [grig_debug_init] and
    [grig_debug_close] (RIG_DEBUG_VERBOSE being above RIG_DEBUG_NONE); a
    message logged at RIG_DEBUG_NONE itself is not above the threshold and,
    unless it is blank, is written, one record per line. A run whose
    messages are all above RIG_DEBUG_NONE writes nothing at all. *)
Theorem initial_threshold_silence (clk : nat -> GDateTime) :
  RIG_DEBUG_NONE < RIG_DEBUG_VERBOSE ->
  grig_debug_get_level (initial_world clk) = RIG_DEBUG_NONE
  /\ (forall calls,
        Forall not_set_level calls ->
        let w := run_calls calls (initial_world clk) in
        grig_debug_get_level w = RIG_DEBUG_NONE
        /\ (forall debug_level fmt ap,
              RIG_DEBUG_NONE < debug_level ->
              snd (grig_debug_local debug_level fmt ap w) = w
              /\ snd (grig_debug_hamlib_cb debug_level fmt ap w) = w)
        /\ (forall filename,
              stderr (grig_debug_init filename w) = stderr w
              /\ stderr (grig_debug_close (grig_debug_init filename w)) = stderr w)
        /\ stderr (grig_debug_close w) = stderr w
        /\ (forall fmt ap,
              g_strchomp (g_strdup_vprintf fmt ap) <> EmptyString ->
              lines_of_message (g_strdup_vprintf fmt ap) <> []
              /\ stderr (snd (grig_debug_local RIG_DEBUG_NONE fmt ap w))
                 = stderr w
                     ++ records_from clk (clock_reads w) MSG_SRC_GRIG RIG_DEBUG_NONE
                          (lines_of_message (g_strdup_vprintf fmt ap))
              /\ stderr (snd (grig_debug_hamlib_cb RIG_DEBUG_NONE fmt ap w))
                 = stderr w
                     ++ records_from clk (clock_reads w) MSG_SRC_HAMLIB RIG_DEBUG_NONE
                          (lines_of_message (g_strdup_vprintf fmt ap))))
  /\ (forall calls,
        Forall not_set_level calls ->
        Forall (logs_above RIG_DEBUG_NONE) calls ->
        stderr (run_calls calls (initial_world clk)) = []
        /\ grig_debug_get_level (run_calls calls (initial_world clk))
           = RIG_DEBUG_NONE)
  /\ (forall filename,
        stderr (grig_debug_init filename (initial_world clk)) = []
        /\ stderr (grig_debug_close (grig_debug_init filename (initial_world clk)))
           = []).
Proof.
  intros Hverbose.
  assert (Hlevel : forall calls,
             Forall not_set_level calls ->
             dbglvl (run_calls calls (initial_world clk)) = RIG_DEBUG_NONE).
  { induction calls as [|c calls IH] using rev_ind; intros Hset; [reflexivity |].
    apply Forall_app in Hset as [Hset Hc]. rewrite run_calls_snoc.
    destruct (run_call_globals c (run_calls calls (initial_world clk)))
      as (_ & _ & Hkeep).
    rewrite Hkeep by now inversion Hc. apply IH, Hset. }
  assert (Hcalls : forall calls,
             Forall not_set_level calls ->
             Forall (logs_above RIG_DEBUG_NONE) calls ->
             stderr (run_calls calls (initial_world clk)) = []
             /\ dbglvl (run_calls calls (initial_world clk)) = RIG_DEBUG_NONE).
  { induction calls as [|c calls IH] using rev_ind; intros Hset Hlog.
    - split; reflexivity.
    - apply Forall_app in Hset as [Hset Hc1]. apply Forall_app in Hlog as [Hlog Hc2].
      destruct (IH Hset Hlog) as [IHout IHlvl].
      rewrite run_calls_snoc.
      destruct (run_call_silent c (run_calls calls (initial_world clk)))
        as [Hout Hlvl]; try assumption.
      + now inversion Hc1.
      + now inversion Hc2.
      + split; [congruence | exact Hlvl]. }
  split; [reflexivity | split; [| split; [exact Hcalls |]]].
  - intros calls Hset w.
    assert (Hw : dbglvl w = RIG_DEBUG_NONE) by apply Hlevel, Hset.
    assert (Hclk : clock w = clk) by apply run_calls_stderr.
    split; [exact Hw | split; [| split; [| split]]].
    + intros debug_level fmt ap Habove.
      rewrite local_entry, hamlib_cb_entry, !debug_entry_filtered by lia.
      split; reflexivity.
    + intros filename. rewrite init_filtered by lia.
      rewrite close_filtered by (cbn [dbglvl rig_set_debug_callback]; lia).
      split; reflexivity.
    + rewrite close_filtered by lia. reflexivity.
    + intros fmt ap Hmsg. split.
      * intros Hnil. apply lines_of_message_nil in Hnil. contradiction.
      * rewrite local_entry, hamlib_cb_entry, !debug_entry_passed by lia.
        cbn [snd emitted stderr]. rewrite Hclk. split; reflexivity.
  - intros filename. split.
    + destruct (Hcalls [call_init filename]) as [H _]; [repeat constructor .. | exact H].
    + destruct (Hcalls [call_init filename; call_close]) as [H _];
        [repeat constructor .. | exact H].
Qed.

End InitialThreshold.

Section InitialThresholdRuns.

#[local] Existing Instance hamlib_values.
#[local] Existing Instance bar_separator.

(** Before any [set_level]: [init], a library message at level 2 and
    [close] write nothing; after a message at level 0 was written, a message
    at level 3 is still dropped. *)
Lemma initial_threshold_silence_run :
  let w := run_calls [call_local 0 "boot" []] (initial_world sample_clock) in
  RIG_DEBUG_NONE < RIG_DEBUG_VERBOSE
  /\ stderr (run_calls [call_init (Some "grig.log");
                        call_hamlib_cb 2 "rig_open: %s" [ArgStr "failed"];
                        call_close]
               (initial_world sample_clock)) = []
  /\ stderr w = [("2024/02/29 12:00:00|GRIG|0|boot" ++ LF)%string]
  /\ snd (grig_debug_local 3 "later" [] w) = w
  /\ stderr (snd (grig_debug_hamlib_cb RIG_DEBUG_NONE "again" [] w))
     = [("2024/02/29 12:00:00|GRIG|0|boot" ++ LF)%string;
        ("2024/02/29 12:00:01|HAMLIB|0|again" ++ LF)%string].
Proof.
  intros w.
  assert (Hverbose : RIG_DEBUG_NONE < RIG_DEBUG_VERBOSE) by reflexivity.
  destruct (initial_threshold_silence sample_clock Hverbose)
    as (_ & Hstate & Hcalls & _).
  assert (Hset : Forall not_set_level [call_local 0 "boot" []])
    by (repeat constructor).
  destruct (Hstate [call_local 0 "boot" []] Hset) as (_ & Habove & _ & _ & Hnone).
  fold w in Habove, Hnone.
  split; [exact Hverbose | split; [| split; [| split]]].
  - apply Hcalls; repeat constructor.
  - vm_compute. reflexivity.
  - apply Habove. reflexivity.
  - destruct (Hnone "again" []) as (_ & _ & Hcb).
    + vm_compute. discriminate.
    + rewrite Hcb. vm_compute. reflexivity.
Defined.

(** C10 as worded fails: in the initial state a message logged at level
    RIG_DEBUG_NONE itself is not above the threshold and is written. *)
Lemma initial_silence_as_worded_fails : ~ initial_silence_as_worded.
Proof.
  intros H.
  destruct (H sample_clock) as [_ Hsilent].
  specialize (Hsilent [call_local RIG_DEBUG_NONE "x" []]).
  assert (Hset : Forall not_set_level [call_local RIG_DEBUG_NONE "x" []])
    by (repeat constructor).
  specialize (Hsilent Hset). vm_compute in Hsilent. discriminate.
Qed.

End InitialThresholdRuns.

(** ** Further facts about chomp and split *)
Section PipelineFacts.

(** Whitespace after a text does not change its chomp. *)
Lemma strip_trailing_append_stripped (f : ascii -> bool) (s ws : string) :
  all_chars f ws = true ->
  strip_trailing f (s ++ ws) = strip_trailing f s.
Proof.
  revert s. induction ws as [|p c IH] using string_rev_ind; intros s Hws.
  - now rewrite append_nil_r.
  - rewrite all_chars_append in Hws. apply andb_true_iff in Hws as [Hp Hc].
    cbn [all_chars] in Hc. rewrite andb_true_r in Hc.
    rewrite <- append_assoc, strip_trailing_snoc, Hc. apply IH, Hp.
Qed.

(** A text whose chomp is not empty protects what stands before it. *)
Lemma strip_trailing_prefix (f : ascii -> bool) (a b : string) :
  strip_trailing f b <> EmptyString ->
  strip_trailing f (a ++ b) = (a ++ strip_trailing f b)%string.
Proof.
  intros Hb. induction a as [|c a IH]; [reflexivity |].
  cbn [append strip_trailing]. rewrite IH.
  destruct (a ++ strip_trailing f b)%string eqn:E; [| reflexivity].
  destruct a; cbn [append] in E; [contradiction | discriminate].
Qed.

(** Without a token limit the token count plays no part in the scan. *)
Lemma strsplit_scan_count (delimiters : string) (n m : nat) (current s : string) :
  strsplit_scan delimiters None n current s
  = strsplit_scan delimiters None m current s.
Proof.
  revert n m current. induction s as [|c s IH]; intros n m current.
  - reflexivity.
  - cbn [strsplit_scan may_cut]. rewrite andb_true_r.
    destruct (is_delimiter delimiters c).
    + f_equal. apply IH.
    + apply IH.
Qed.

(** Splitting at a line feed in the middle: the tokens before it, then
    the tokens after it. *)
Lemma strsplit_scan_append (n : nat) (current a b : string) :
  strsplit_scan LF None n current (a ++ LF ++ b)
  = strsplit_scan LF None n current a ++ strsplit_scan LF None 0 EmptyString b.
Proof.
  revert n current. induction a as [|x a IH]; intros n current.
  - change ((EmptyString ++ LF ++ b)%string) with (String LF_char b).
    cbn [strsplit_scan may_cut]. rewrite andb_true_r, is_delimiter_LF.
    unfold is_newline. rewrite Ascii.eqb_refl.
    cbn [app]. f_equal. apply strsplit_scan_count.
  - change ((String x a ++ LF ++ b)%string) with (String x (a ++ LF ++ b)).
    cbn [strsplit_scan may_cut]. rewrite andb_true_r.
    destruct (is_delimiter LF x).
    + cbn [app]. f_equal. apply IH.
    + apply IH.
Qed.

(** The lines of two non-empty texts joined by a line feed. *)
Lemma g_strsplit_set_append (a b : string) :
  a <> EmptyString -> b <> EmptyString ->
  g_strsplit_set (a ++ LF ++ b) LF 0
  = g_strsplit_set a LF 0 ++ g_strsplit_set b LF 0.
Proof.
  destruct a as [|x a]; [congruence |]. destruct b as [|y b]; [congruence |].
  intros _ _.
  change ((String x a ++ LF ++ String y b)%string)
    with (String x (a ++ LF ++ String y b)).
  rewrite !g_strsplit_set_scan.
  change (String x (a ++ LF ++ String y b))
    with ((String x a ++ LF ++ String y b)%string).
  apply strsplit_scan_append.
Qed.

End PipelineFacts.

(** ** Facts about whole runs *)
Section RunFacts.

Context {hamlib : rig_h} {header : grig_debug_h}.

Lemma records_from_count (clk : nat -> GDateTime) (n : nat)
    (source : debug_msg_src_t) (debug_level : Z) (lines : list string) :
  List.length (records_from clk n source debug_level lines) = List.length lines.
Proof.
  revert n. induction lines as [|line lines IH]; intros n; cbn [records_from List.length];
    [reflexivity | now rewrite IH].
Qed.

Lemma records_from_app (clk : nat -> GDateTime) (n : nat)
    (source : debug_msg_src_t) (debug_level : Z) (l1 l2 : list string) :
  records_from clk n source debug_level (l1 ++ l2)
  = records_from clk n source debug_level l1
      ++ records_from clk (n + List.length l1) source debug_level l2.
Proof.
  revert n. induction l1 as [|line l1 IH]; intros n; cbn [records_from app List.length].
  - now rewrite Nat.add_0_r.
  - rewrite IH. now rewrite Nat.add_succ_comm.
Qed.

Lemma records_from_stamped (clk : nat -> GDateTime) (n : nat)
    (source : debug_msg_src_t) (debug_level : Z) (lines : list string) :
  records_from clk n source debug_level lines
  = stamped_records clk n
      (map (fun line => {| entry_source := source; entry_level := debug_level;
                           entry_message := line |}) lines).
Proof.
  revert n. induction lines as [|line lines IH]; intros n; [reflexivity |].
  cbn [records_from map stamped_records entry_source entry_level entry_message].
  now rewrite IH.
Qed.

Lemma stamped_records_app (clk : nat -> GDateTime) (n : nat) (a b : list entry) :
  stamped_records clk n (a ++ b)
  = stamped_records clk n a ++ stamped_records clk (n + List.length a) b.
Proof.
  revert n. induction a as [|e a IH]; intros n; cbn [stamped_records app List.length].
  - now rewrite Nat.add_0_r.
  - rewrite IH. now rewrite Nat.add_succ_comm.
Qed.

Lemma stamped_records_length (clk : nat -> GDateTime) (n : nat) (es : list entry) :
  List.length (stamped_records clk n es) = List.length es.
Proof.
  revert n. induction es as [|e es IH]; intros n; cbn [stamped_records List.length];
    [reflexivity | now rewrite IH].
Qed.

(** What an entry point writes: entries of its own source, one per line. *)
Lemma debug_entry_entries (source : debug_msg_src_t) (debug_level : Z)
    (fmt : string) (ap : list printf_arg) (w : world) :
  exists es,
    snd (debug_entry source debug_level fmt ap w)
    = emitted (stamped_records (clock w) (clock_reads w) es) w
    /\ Forall (fun e => entry_source e = source
                        /\ no_newline (entry_message e) = true) es.
Proof.
  destruct (Z_lt_le_dec (dbglvl w) debug_level) as [H | H].
  - exists []. rewrite debug_entry_filtered by exact H.
    split; [now rewrite emitted_nil | constructor].
  - eexists. rewrite debug_entry_passed by exact H.
    rewrite records_from_stamped. split; [reflexivity |].
    apply Forall_map. eapply Forall_impl; [| apply g_strsplit_set_lines].
    intros line Hline. now split.
Qed.

Lemma run_call_entries (c : call) (w : world) :
  exists es,
    stderr (run_call c w)
    = stderr w ++ stamped_records (clock w) (clock_reads w) es
    /\ clock_reads (run_call c w) = (clock_reads w + List.length es)%nat
    /\ Forall logged_entry es.
Proof.
  assert (Hsrc : forall source es,
             source = MSG_SRC_HAMLIB \/ source = MSG_SRC_GRIG ->
             Forall (fun e => entry_source e = source
                              /\ no_newline (entry_message e) = true) es ->
             Forall logged_entry es).
  { intros source es Hs. apply Forall_impl. intros e [He1 He2].
    split; [rewrite He1; exact Hs | exact He2]. }
  assert (Hquiet : forall v : world,
             stderr v = stderr v ++ stamped_records (clock v) (clock_reads v) []
             /\ clock_reads v = (clock_reads v + List.length (@nil entry))%nat
             /\ Forall logged_entry []).
  { intros v. cbn [stamped_records List.length]. rewrite app_nil_r, Nat.add_0_r.
    repeat split. constructor. }
  destruct c as [filename | | lvl fmt ap | lvl fmt ap | | level |]; cbn [run_call].
  - unfold grig_debug_init. rewrite local_entry.
    replace (match filename with Some _ => w | None => w end) with w
      by now destruct filename.
    destruct (debug_entry_entries MSG_SRC_GRIG RIG_DEBUG_VERBOSE
                (gettext "%s: Debug handler initialised.")
                [ArgStr "grig_debug_init"] (rig_set_debug_callback true w))
      as (es & -> & Hes).
    exists es. cbn [emitted stderr clock_reads clock rig_set_debug_callback].
    rewrite stamped_records_length. repeat split.
    apply (Hsrc MSG_SRC_GRIG); [now right | exact Hes].
  - unfold grig_debug_close. rewrite local_entry.
    destruct (debug_entry_entries MSG_SRC_GRIG RIG_DEBUG_VERBOSE
                (gettext "%s: Shutting down debug handler.")
                [ArgStr "grig_debug_close"] w) as (es & -> & Hes).
    exists es. cbn [emitted stderr clock_reads clock rig_set_debug_callback].
    rewrite stamped_records_length. repeat split.
    apply (Hsrc MSG_SRC_GRIG); [now right | exact Hes].
  - rewrite hamlib_cb_entry.
    destruct (debug_entry_entries MSG_SRC_HAMLIB lvl fmt ap w) as (es & -> & Hes).
    exists es. cbn [emitted stderr clock_reads clock].
    rewrite stamped_records_length. repeat split.
    apply (Hsrc MSG_SRC_HAMLIB); [now left | exact Hes].
  - rewrite local_entry.
    destruct (debug_entry_entries MSG_SRC_GRIG lvl fmt ap w) as (es & -> & Hes).
    exists es. cbn [emitted stderr clock_reads clock].
    rewrite stamped_records_length. repeat split.
    apply (Hsrc MSG_SRC_GRIG); [now right | exact Hes].
  - exists []. apply Hquiet.
  - exists []. unfold grig_debug_set_level.
    destruct ((level >=? RIG_DEBUG_NONE) && (level <=? RIG_DEBUG_TRACE))%bool;
      [apply (Hquiet w) | apply Hquiet].
  - exists []. apply Hquiet.
Qed.

(** A run appends entries to standard error, each stamped with the next
    reading of the clock. *)
Lemma run_calls_entries (calls : list call) (w : world) :
  exists es,
    stderr (run_calls calls w)
    = stderr w ++ stamped_records (clock w) (clock_reads w) es
    /\ clock_reads (run_calls calls w) = (clock_reads w + List.length es)%nat
    /\ clock (run_calls calls w) = clock w
    /\ Forall logged_entry es.
Proof.
  induction calls as [|c calls (es & Hout & Hreads & Hclk & Hes)] using rev_ind.
  - exists []. cbn [run_calls fold_left stamped_records List.length].
    rewrite app_nil_r, Nat.add_0_r. repeat split. constructor.
  - rewrite run_calls_snoc.
    set (v := run_calls calls w) in *.
    destruct (run_call_globals c v) as (_ & Hclk' & _).
    destruct (run_call_entries c v) as (es' & Hout' & Hreads' & Hes').
    exists (es ++ es'). split; [| split; [| split]].
    + rewrite Hout', Hout, Hreads, Hclk, stamped_records_app, <- app_assoc.
      reflexivity.
    + rewrite Hreads', Hreads, length_app, Nat.add_assoc. reflexivity.
    + congruence.
    + apply Forall_app. now split.
Qed.

(** The threshold stays in range along a run. *)
Lemma run_calls_threshold_range (clk : nat -> GDateTime) (calls : list call) :
  RIG_DEBUG_NONE <= RIG_DEBUG_TRACE ->
  RIG_DEBUG_NONE <= dbglvl (run_calls calls (initial_world clk)) <= RIG_DEBUG_TRACE.
Proof.
  intros Hrange. induction calls as [|c calls IH] using rev_ind.
  - cbn. lia.
  - rewrite run_calls_snoc.
    set (w := run_calls calls (initial_world clk)) in *.
    destruct (run_call_globals c w) as (_ & _ & Hkeep).
    destruct c as [filename | | lvl fmt ap | lvl fmt ap | | level |];
      try (rewrite Hkeep by exact I; exact IH).
    cbn [run_call].
    destruct (set_level_result level w) as [[H Hl] | [_ Hl]].
    + unfold grig_debug_get_level in Hl. rewrite Hl. exact H.
    + rewrite Hl. exact IH.
Qed.

End RunFacts.

(** ** Standard error along a run *)
Section RunOutput.

Context {hamlib : rig_h} {header : grig_debug_h}.

(** X1. Along any sequence of calls standard error only grows, and the
    texts added are records stamped with consecutive readings of the clock,
    in the order of writing: the k-th record added carries the k-th reading
    taken, and exactly one reading is taken per record. *)
Theorem stderr_in_clock_order (calls : list call) (w : world) :
  exists es,
    stderr (run_calls calls w)
    = stderr w ++ stamped_records (clock w) (clock_reads w) es
    /\ clock_reads (run_calls calls w) = (clock_reads w + List.length es)%nat
    /\ List.length (stderr (run_calls calls w))
       = (List.length (stderr w)
          + (clock_reads (run_calls calls w) - clock_reads w))%nat.
Proof.
  destruct (run_calls_entries calls w) as (es & Hout & Hreads & _ & _).
  exists es. split; [exact Hout | split; [exact Hreads |]].
  rewrite Hout, Hreads, length_app, stamped_records_length. lia.
Qed.

(** X2. Every text that a sequence of calls adds to standard error is a
    record tagged HAMLIB or GRIG, never NONE, with a message of one line and
    the stamp of a clock reading taken during the run. *)
Theorem records_tagged_hamlib_or_grig (calls : list call) (w : world) (r : string) :
  In r (stderr (run_calls calls w)) ->
  In r (stderr w)
  \/ exists n debug_level message,
       (clock_reads w <= n < clock_reads (run_calls calls w))%nat
       /\ no_newline message = true
       /\ (r = debug_record (clock w n) MSG_SRC_HAMLIB debug_level message
           \/ r = debug_record (clock w n) MSG_SRC_GRIG debug_level message).
Proof.
  intros Hr.
  destruct (run_calls_entries calls w) as (es & Hout & Hreads & _ & Hes).
  rewrite Hout in Hr. apply in_app_or in Hr as [Hr | Hr]; [now left | right].
  assert (Hk : exists k e,
             (k < List.length es)%nat /\ In e es
             /\ r = debug_record (clock w (clock_reads w + k)%nat) (entry_source e)
                      (entry_level e) (entry_message e)).
  { clear -Hr. remember (clock_reads w) as n eqn:En. clear En.
    revert n Hr. induction es as [|e es IH]; intros n Hr; [contradiction |].
    cbn [stamped_records] in Hr. destruct Hr as [<- | Hr].
    - exists O, e. rewrite Nat.add_0_r. cbn [List.length].
      split; [lia | split; [now left | reflexivity]].
    - destruct (IH (S n) Hr) as (k & e' & Hlt & He' & ->).
      exists (S k), e'. rewrite Nat.add_succ_comm. cbn [List.length].
      split; [lia | split; [now right | reflexivity]]. }
  destruct Hk as (k & e & Hlt & He & ->).
  rewrite Forall_forall in Hes. destruct (Hes e He) as [Hsrc Hmsg].
  exists (clock_reads w + k)%nat, (entry_level e), (entry_message e).
  split; [lia | split; [exact Hmsg |]].
  destruct Hsrc as [-> | ->]; [now left | now right].
Qed.

End RunOutput.

Section RunOutputRuns.

#[local] Existing Instance hamlib_values.
#[local] Existing Instance bar_separator.

(** The third record of the session is a HAMLIB record of the third reading. *)
Lemma records_tagged_hamlib_or_grig_run :
  let r := ("2024/02/29 12:00:02|HAMLIB|2|retry 3" ++ LF)%string in
  In r (stderr (run_calls sample_session (initial_world sample_clock)))
  /\ exists n debug_level message,
       (0 <= n < 4)%nat
       /\ no_newline message = true
       /\ (r = debug_record (sample_clock n) MSG_SRC_HAMLIB debug_level message
           \/ r = debug_record (sample_clock n) MSG_SRC_GRIG debug_level message).
Proof.
  intros r.
  assert (Hr : In r (stderr (run_calls sample_session (initial_world sample_clock)))).
  { vm_compute. right. right. left. reflexivity. }
  split; [exact Hr |].
  destruct (records_tagged_hamlib_or_grig sample_session
              (initial_world sample_clock) r Hr) as [Hold | Hnew].
  - destruct Hold.
  - exact Hnew.
Defined.

End RunOutputRuns.

(** ** The settings shared with hamlib *)
Section Settings.

Context {hamlib : rig_h} {header : grig_debug_h}.

(** The two entry points do nothing but write. *)
Lemma debug_entry_only_writes (source : debug_msg_src_t) (debug_level : Z)
    (fmt : string) (ap : list printf_arg) (w : world) :
  only_writes w (snd (debug_entry source debug_level fmt ap w)).
Proof.
  destruct (debug_entry_emitted source debug_level fmt ap w) as [recs ->].
  unfold only_writes, emitted.
  cbn [dbglvl logfname hamlib_callback hamlib_level clock stderr clock_reads].
  repeat split. exists recs. split; reflexivity.
Qed.

(** Only [grig_debug_set_level] talks to [rig_set_debug], and only
    [grig_debug_init] and [grig_debug_close] to [rig_set_debug_callback]. *)
Lemma run_call_settings (c : call) (w : world) :
  (not_set_level c -> hamlib_level (run_call c w) = hamlib_level w)
  /\ (keeps_registration c -> hamlib_callback (run_call c w) = hamlib_callback w).
Proof.
  destruct c as [filename | | lvl fmt ap | lvl fmt ap | | level |];
    cbn [run_call not_set_level keeps_registration].
  - split; [intros _ | contradiction].
    unfold grig_debug_init. rewrite local_entry.
    destruct (debug_entry_emitted MSG_SRC_GRIG RIG_DEBUG_VERBOSE
                (gettext "%s: Debug handler initialised.")
                [ArgStr "grig_debug_init"]
                (rig_set_debug_callback true
                   match filename with Some _ => w | None => w end)) as [recs ->].
    now destruct filename.
  - split; [intros _ | contradiction].
    unfold grig_debug_close. rewrite local_entry.
    destruct (debug_entry_emitted MSG_SRC_GRIG RIG_DEBUG_VERBOSE
                (gettext "%s: Shutting down debug handler.")
                [ArgStr "grig_debug_close"] w) as [recs ->].
    reflexivity.
  - rewrite hamlib_cb_entry.
    destruct (debug_entry_only_writes MSG_SRC_HAMLIB lvl fmt ap w)
      as (_ & _ & Hcb & Hlvl & _).
    now split.
  - rewrite local_entry.
    destruct (debug_entry_only_writes MSG_SRC_GRIG lvl fmt ap w)
      as (_ & _ & Hcb & Hlvl & _).
    now split.
  - now split.
  - split; [contradiction | intros _].
    unfold grig_debug_set_level.
    now destruct ((level >=? RIG_DEBUG_NONE) && (level <=? RIG_DEBUG_TRACE))%bool.
  - now split.
Qed.

(** X3. The level last given to hamlib through [rig_set_debug] is the
    threshold of the handler: after any sequence of calls from the initial
    state either [rig_set_debug] was never called and the threshold is still
    RIG_DEBUG_NONE, or the level given to hamlib equals the threshold. An
    accepted [grig_debug_set_level] forwards exactly its argument. *)
Theorem hamlib_level_follows_threshold :
  (forall clk calls,
      let w := run_calls calls (initial_world clk) in
      (hamlib_level w = None /\ grig_debug_get_level w = RIG_DEBUG_NONE)
      \/ hamlib_level w = Some (grig_debug_get_level w))
  /\ (forall level w,
        RIG_DEBUG_NONE <= level <= RIG_DEBUG_TRACE ->
        hamlib_level (grig_debug_set_level level w) = Some level).
Proof.
  split.
  - intros clk calls. cbv zeta. unfold grig_debug_get_level.
    induction calls as [|c calls IH] using rev_ind.
    + left. split; reflexivity.
    + rewrite run_calls_snoc.
      set (w := run_calls calls (initial_world clk)) in *.
      destruct (run_call_globals c w) as (_ & _ & Hkeep).
      destruct (run_call_settings c w) as (Hlvl & _).
      destruct c as [filename | | lvl fmt ap | lvl fmt ap | | level |];
        try (rewrite Hkeep, Hlvl by exact I; exact IH).
      cbn [run_call].
      destruct (set_level_result level w) as [[H _] | [_ Hl]].
      * right. rewrite set_level_in_range by exact H. reflexivity.
      * rewrite Hl. exact IH.
  - intros level w H. rewrite set_level_in_range by exact H. reflexivity.
Qed.

(** X4. Whether the callback is registered with hamlib depends only on
    the last of the calls [grig_debug_init] and [grig_debug_close]: after an
    [init] followed by calls other than these two it is registered, after a
    [close] followed by such calls it is not, whatever the threshold and
    whether or not the confirmation message was written. *)
Theorem registration_follows_init_close (calls rest : list call) (w : world) :
  Forall keeps_registration rest ->
  (forall filename,
      hamlib_callback (run_calls (calls ++ call_init filename :: rest) w) = true)
  /\ hamlib_callback (run_calls (calls ++ call_close :: rest) w) = false
  /\ hamlib_callback (run_calls rest w) = hamlib_callback w.
Proof.
  intros Hrest.
  assert (Hkeep : forall v, hamlib_callback (run_calls rest v) = hamlib_callback v).
  { clear calls w. induction Hrest as [|c rest Hc _ IH]; intros v; [reflexivity |].
    change (run_calls (c :: rest) v) with (run_calls rest (run_call c v)).
    rewrite IH. now apply run_call_settings. }
  assert (Hcons : forall c v,
             run_calls (calls ++ c :: rest) v
             = run_calls rest (run_call c (run_calls calls v))).
  { intros c v. unfold run_calls. now rewrite fold_left_app. }
  split; [| split].
  - intros filename. rewrite Hcons, Hkeep. cbn [run_call].
    unfold grig_debug_init. rewrite local_entry.
    destruct (debug_entry_emitted MSG_SRC_GRIG RIG_DEBUG_VERBOSE
                (gettext "%s: Debug handler initialised.")
                [ArgStr "grig_debug_init"]
                (rig_set_debug_callback true
                   match filename with
                   | Some _ => run_calls calls w
                   | None => run_calls calls w
                   end)) as [recs ->].
    reflexivity.
  - rewrite Hcons, Hkeep. reflexivity.
  - apply Hkeep.
Qed.

(** X5. A call of [grig_debug_local] or [grig_debug_hamlib_cb] does
    nothing but write: the threshold, the log file name, the callback
    registration and the level known to hamlib are as before, the texts
    already on standard error are kept, and one clock reading is taken per
    text added. *)
Theorem logging_only_writes (debug_level : Z) (fmt : string)
    (ap : list printf_arg) (w : world) :
  only_writes w (snd (grig_debug_local debug_level fmt ap w))
  /\ only_writes w (snd (grig_debug_hamlib_cb debug_level fmt ap w)).
Proof.
  rewrite local_entry, hamlib_cb_entry.
  split; apply debug_entry_only_writes.
Qed.

End Settings.

Section SettingsRuns.

#[local] Existing Instance hamlib_values.
#[local] Existing Instance bar_separator.

(** Logging and level changes after [init] keep the callback registered;
    after [close] it is gone. *)
Lemma registration_follows_init_close_run :
  Forall keeps_registration [call_set_level 5; call_local 1 "tuned" []]
  /\ hamlib_callback
       (run_calls [call_close; call_init None; call_set_level 5; call_local 1 "tuned" []]
          (initial_world sample_clock)) = true
  /\ hamlib_callback
       (run_calls [call_init None; call_close; call_set_level 5; call_local 1 "tuned" []]
          (initial_world sample_clock)) = false.
Proof.
  assert (Hrest : Forall keeps_registration [call_set_level 5; call_local 1 "tuned" []])
    by (repeat constructor).
  split; [exact Hrest | split].
  - destruct (registration_follows_init_close [call_close]
                [call_set_level 5; call_local 1 "tuned" []]
                (initial_world sample_clock) Hrest) as (Hinit & _ & _).
    exact (Hinit None).
  - destruct (registration_follows_init_close [call_init None]
                [call_set_level 5; call_local 1 "tuned" []]
                (initial_world sample_clock) Hrest) as (_ & Hclose & _).
    exact Hclose.
Defined.

End SettingsRuns.

(** ** Changing the threshold *)
Section ThresholdChanges.

Context {hamlib : rig_h} {header : grig_debug_h}.

Lemma set_level_output (level : Z) (w : world) :
  stderr (grig_debug_set_level level w) = stderr w
  /\ clock (grig_debug_set_level level w) = clock w
  /\ clock_reads (grig_debug_set_level level w) = clock_reads w.
Proof.
  unfold grig_debug_set_level.
  destruct ((level >=? RIG_DEBUG_NONE) && (level <=? RIG_DEBUG_TRACE))%bool;
    repeat split.
Qed.

(** X6. Raising the threshold never silences a message: a message that
    passes the filter at the current threshold writes exactly the same
    records after [grig_debug_set_level] moved the threshold to a valid
    level at or above the current one; and a message that is dropped stays
    dropped after the threshold was lowered. *)
Theorem threshold_monotone (L : Z) (w : world) (debug_level : Z) (fmt : string)
    (ap : list printf_arg) :
  RIG_DEBUG_NONE <= L <= RIG_DEBUG_TRACE ->
  (debug_level <= dbglvl w <= L ->
     stderr (snd (grig_debug_local debug_level fmt ap (grig_debug_set_level L w)))
     = stderr (snd (grig_debug_local debug_level fmt ap w))
     /\ stderr (snd (grig_debug_hamlib_cb debug_level fmt ap (grig_debug_set_level L w)))
        = stderr (snd (grig_debug_hamlib_cb debug_level fmt ap w)))
  /\ (L <= dbglvl w < debug_level ->
        stderr (snd (grig_debug_local debug_level fmt ap (grig_debug_set_level L w)))
        = stderr w
        /\ stderr (snd (grig_debug_hamlib_cb debug_level fmt ap (grig_debug_set_level L w)))
           = stderr w).
Proof.
  intros HL.
  assert (Hlvl : dbglvl (grig_debug_set_level L w) = L)
    by (rewrite set_level_in_range by exact HL; reflexivity).
  destruct (set_level_output L w) as (Hout & Hclk & Hreads).
  rewrite !local_entry, !hamlib_cb_entry. split; intros H.
  - rewrite !debug_entry_passed by lia.
    cbn [snd emitted stderr]. rewrite Hout, Hclk, Hreads. split; reflexivity.
  - rewrite !debug_entry_filtered by lia. cbn [snd]. split; exact Hout.
Qed.

(** X7. Of two consecutive calls of [grig_debug_set_level] the last one
    with a valid level decides: a valid second level makes the first call
    irrelevant, an invalid second level leaves the result of the first, and
    setting the same level twice is the same as setting it once. *)
Theorem set_level_last_valid_wins (l1 l2 : Z) (w : world) :
  (RIG_DEBUG_NONE <= l2 <= RIG_DEBUG_TRACE ->
     grig_debug_set_level l2 (grig_debug_set_level l1 w) = grig_debug_set_level l2 w)
  /\ (~ RIG_DEBUG_NONE <= l2 <= RIG_DEBUG_TRACE ->
        grig_debug_set_level l2 (grig_debug_set_level l1 w) = grig_debug_set_level l1 w)
  /\ grig_debug_set_level l1 (grig_debug_set_level l1 w) = grig_debug_set_level l1 w.
Proof.
  assert (Hvalid : forall a b v,
             RIG_DEBUG_NONE <= b <= RIG_DEBUG_TRACE ->
             grig_debug_set_level b (grig_debug_set_level a v)
             = grig_debug_set_level b v).
  { intros a b v Hb. rewrite !(set_level_in_range b) by exact Hb.
    destruct (set_level_result a v) as [[Ha _] | [_ ->]]; [| reflexivity].
    rewrite set_level_in_range by exact Ha. reflexivity. }
  split; [apply Hvalid | split].
  - intros H2. apply set_level_out_of_range, H2.
  - destruct (set_level_result l1 w) as [[H1 _] | [_ Hl]].
    + apply Hvalid, H1.
    + now rewrite !Hl.
Qed.

End ThresholdChanges.

Section ThresholdChangesRuns.

#[local] Existing Instance hamlib_values.
#[local] Existing Instance bar_separator.

(** A level-2 message at the thresholds 3 and 5, and a level-4 message at
    the thresholds 3 and 1. *)
Lemma threshold_monotone_run :
  let w := grig_debug_set_level 3 (initial_world sample_clock) in
  RIG_DEBUG_NONE <= 5 <= RIG_DEBUG_TRACE
  /\ stderr (snd (grig_debug_local 2 "tuned" [] (grig_debug_set_level 5 w)))
     = [("2024/02/29 12:00:00|GRIG|2|tuned" ++ LF)%string]
  /\ stderr (snd (grig_debug_hamlib_cb 4 "poll" [] (grig_debug_set_level 1 w))) = [].
Proof.
  intros w.
  assert (H5 : RIG_DEBUG_NONE <= 5 <= RIG_DEBUG_TRACE) by (vm_compute; split; discriminate).
  assert (H1 : RIG_DEBUG_NONE <= 1 <= RIG_DEBUG_TRACE) by (vm_compute; split; discriminate).
  split; [exact H5 | split].
  - destruct (threshold_monotone 5 w 2 "tuned" [] H5) as [Hup _].
    destruct Hup as [-> _]; [vm_compute; split; discriminate |].
    vm_compute. reflexivity.
  - destruct (threshold_monotone 1 w 4 "poll" [] H1) as [_ Hdown].
    destruct Hdown as [_ ->]; [vm_compute; split; [discriminate | reflexivity] |].
    reflexivity.
Defined.

End ThresholdChangesRuns.

(** ** Messages and the records they give *)
Section Messages.

Context {hamlib : rig_h} {header : grig_debug_h}.

(** The outcome of an entry point depends on the message through its
    lines only. *)
Lemma debug_entry_lines (source : debug_msg_src_t) (debug_level : Z)
    (fmt fmt' : string) (ap ap' : list printf_arg) (w : world) :
  lines_of_message (g_strdup_vprintf fmt' ap')
  = lines_of_message (g_strdup_vprintf fmt ap) ->
  debug_entry source debug_level fmt' ap' w = debug_entry source debug_level fmt ap w.
Proof.
  intros Hlines. destruct (Z_lt_le_dec (dbglvl w) debug_level) as [H | H].
  - now rewrite !debug_entry_filtered by exact H.
  - rewrite !debug_entry_passed by exact H. now rewrite Hlines.
Qed.

(** X8. Whitespace at the end of the formatted message is of no effect:
    two calls whose formatted messages differ only by trailing spaces, tabs,
    line feeds, form feeds or carriage returns have the same result and
    leave the same state. *)
Theorem trailing_whitespace_ignored (debug_level : Z) (fmt fmt' : string)
    (ap ap' : list printf_arg) (ws : string) (w : world) :
  all_chars g_ascii_isspace ws = true ->
  g_strdup_vprintf fmt' ap' = (g_strdup_vprintf fmt ap ++ ws)%string ->
  grig_debug_local debug_level fmt' ap' w = grig_debug_local debug_level fmt ap w
  /\ grig_debug_hamlib_cb debug_level fmt' ap' w
     = grig_debug_hamlib_cb debug_level fmt ap w.
Proof.
  intros Hws Hmsg.
  assert (Hlines : lines_of_message (g_strdup_vprintf fmt' ap')
                   = lines_of_message (g_strdup_vprintf fmt ap)).
  { unfold lines_of_message.
    rewrite Hmsg, !g_strchomp_strip, strip_trailing_append_stripped by exact Hws.
    reflexivity. }
  rewrite !local_entry, !hamlib_cb_entry.
  split; apply debug_entry_lines, Hlines.
Qed.

(** One call for two messages joined by a line feed, against one call for
    each. *)
Lemma debug_entry_joined (source : debug_msg_src_t) (debug_level : Z)
    (fmt fmt1 fmt2 : string) (ap ap1 ap2 : list printf_arg) (w : world) :
  let m1 := g_strdup_vprintf fmt1 ap1 in
  let m2 := g_strdup_vprintf fmt2 ap2 in
  g_strdup_vprintf fmt ap = (m1 ++ LF ++ m2)%string ->
  m1 <> EmptyString -> g_strchomp m1 = m1 -> g_strchomp m2 <> EmptyString ->
  snd (debug_entry source debug_level fmt ap w)
  = snd (debug_entry source debug_level fmt2 ap2
           (snd (debug_entry source debug_level fmt1 ap1 w))).
Proof.
  intros m1 m2 Hmsg Hm1 Hchomp1 Hm2.
  destruct (Z_lt_le_dec (dbglvl w) debug_level) as [H | H].
  - rewrite (debug_entry_filtered source debug_level fmt1) by exact H. cbn [snd].
    now rewrite !debug_entry_filtered by exact H.
  - rewrite (debug_entry_passed source debug_level fmt1) by exact H. cbn [snd].
    rewrite (debug_entry_passed source debug_level fmt2) by exact H.
    rewrite debug_entry_passed by exact H. cbn [snd].
    rewrite emitted_emitted. cbn [emitted clock clock_reads].
    rewrite records_from_count. f_equal.
    fold m1 m2. rewrite <- records_from_app. f_equal.
    unfold lines_of_message. rewrite Hmsg, Hchomp1.
    rewrite g_strchomp_strip in Hm2.
    rewrite (g_strchomp_strip (m1 ++ LF ++ m2)), <- append_assoc,
      strip_trailing_prefix, append_assoc by exact Hm2.
    rewrite g_strsplit_set_append by assumption.
    now rewrite (g_strchomp_strip m2).
Qed.

(** X9. A message of two parts joined by a line feed is written as the
    two parts would be by two calls in a row at the same level: same
    records, same clock readings, same final state. The first part must be
    non-empty and without trailing whitespace, the second not blank. *)
Theorem joined_message_as_two_calls (debug_level : Z) (fmt fmt1 fmt2 : string)
    (ap ap1 ap2 : list printf_arg) (w : world) :
  g_strdup_vprintf fmt ap
  = (g_strdup_vprintf fmt1 ap1 ++ LF ++ g_strdup_vprintf fmt2 ap2)%string ->
  g_strdup_vprintf fmt1 ap1 <> EmptyString ->
  g_strchomp (g_strdup_vprintf fmt1 ap1) = g_strdup_vprintf fmt1 ap1 ->
  g_strchomp (g_strdup_vprintf fmt2 ap2) <> EmptyString ->
  snd (grig_debug_local debug_level fmt ap w)
  = snd (grig_debug_local debug_level fmt2 ap2
           (snd (grig_debug_local debug_level fmt1 ap1 w)))
  /\ snd (grig_debug_hamlib_cb debug_level fmt ap w)
     = snd (grig_debug_hamlib_cb debug_level fmt2 ap2
              (snd (grig_debug_hamlib_cb debug_level fmt1 ap1 w))).
Proof.
  intros Hmsg Hm1 Hchomp1 Hm2.
  rewrite !local_entry, !hamlib_cb_entry.
  split; apply debug_entry_joined; assumption.
Qed.

(** The number of records an entry point writes. *)
Lemma debug_entry_count (source : debug_msg_src_t) (debug_level : Z)
    (fmt : string) (ap : list printf_arg) (w : world) :
  List.length (stderr (snd (debug_entry source debug_level fmt ap w)))
  = (List.length (stderr w)
     + if debug_level >? dbglvl w then O
       else match g_strchomp (g_strdup_vprintf fmt ap) with
            | EmptyString => O
            | String _ _ => S (count_newlines (g_strchomp (g_strdup_vprintf fmt ap)))
            end)%nat.
Proof.
  destruct (Z_lt_le_dec (dbglvl w) debug_level) as [H | H].
  - rewrite debug_entry_filtered by exact H.
    destruct (debug_level >? dbglvl w) eqn:E; [cbn [snd]; lia | lia].
  - rewrite debug_entry_passed by exact H.
    destruct (debug_level >? dbglvl w) eqn:E; [lia |].
    cbn [snd emitted stderr]. rewrite length_app, records_from_count.
    unfold lines_of_message. now rewrite g_strsplit_set_length.
Qed.

(** X10. The number of records one call writes: none when the level is
    above the threshold or the message is blank, and otherwise one more
    than the number of line feeds left in the message once its trailing
    whitespace is removed. *)
Theorem records_per_call (debug_level : Z) (fmt : string) (ap : list printf_arg)
    (w : world) :
  let msg := g_strchomp (g_strdup_vprintf fmt ap) in
  let written :=
    if debug_level >? dbglvl w then O
    else match msg with
         | EmptyString => O
         | String _ _ => S (count_newlines msg)
         end in
  List.length (stderr (snd (grig_debug_local debug_level fmt ap w)))
  = (List.length (stderr w) + written)%nat
  /\ List.length (stderr (snd (grig_debug_hamlib_cb debug_level fmt ap w)))
     = (List.length (stderr w) + written)%nat.
Proof.
  cbv zeta. rewrite local_entry, hamlib_cb_entry.
  split; apply debug_entry_count.
Qed.

(** X11. A message logged at RIG_DEBUG_NONE cannot be silenced: the
    threshold never goes below RIG_DEBUG_NONE, so in every state reached
    from the initial one, whatever levels were set on the way, such a
    message, if it is not blank, is written, one record per line. *)
Theorem level_none_never_silenced (clk : nat -> GDateTime) (calls : list call)
    (fmt : string) (ap : list printf_arg) :
  RIG_DEBUG_NONE <= RIG_DEBUG_TRACE ->
  g_strchomp (g_strdup_vprintf fmt ap) <> EmptyString ->
  let w := run_calls calls (initial_world clk) in
  lines_of_message (g_strdup_vprintf fmt ap) <> []
  /\ stderr (snd (grig_debug_local RIG_DEBUG_NONE fmt ap w))
     = stderr w ++ records_from clk (clock_reads w) MSG_SRC_GRIG RIG_DEBUG_NONE
                     (lines_of_message (g_strdup_vprintf fmt ap))
  /\ stderr (snd (grig_debug_hamlib_cb RIG_DEBUG_NONE fmt ap w))
     = stderr w ++ records_from clk (clock_reads w) MSG_SRC_HAMLIB RIG_DEBUG_NONE
                     (lines_of_message (g_strdup_vprintf fmt ap)).
Proof.
  intros Hrange Hmsg w.
  pose proof (run_calls_threshold_range clk calls Hrange) as Hthr. fold w in Hthr.
  destruct (run_calls_entries calls (initial_world clk)) as (_ & _ & _ & Hclk & _).
  fold w in Hclk. cbn [clock initial_world] in Hclk.
  split.
  - intros Hnil. apply lines_of_message_nil in Hnil. contradiction.
  - rewrite local_entry, hamlib_cb_entry, !debug_entry_passed by lia.
    cbn [snd emitted stderr]. rewrite Hclk. split; reflexivity.
Qed.

End Messages.

Section MessagesRuns.

#[local] Existing Instance hamlib_values.
#[local] Existing Instance bar_separator.

(** "tuned" followed by a space and a line feed is written as "tuned". *)
Lemma trailing_whitespace_ignored_run :
  let w := grig_debug_set_level 3 (initial_world sample_clock) in
  all_chars g_ascii_isspace (" " ++ LF) = true
  /\ grig_debug_local 2 ("tuned " ++ LF) [] w = grig_debug_local 2 "tuned" [] w
  /\ stderr (snd (grig_debug_local 2 ("tuned " ++ LF) [] w))
     = [("2024/02/29 12:00:00|GRIG|2|tuned" ++ LF)%string].
Proof.
  intros w.
  assert (Hws : all_chars g_ascii_isspace (" " ++ LF) = true) by reflexivity.
  destruct (trailing_whitespace_ignored 2 "tuned" ("tuned " ++ LF) [] [] (" " ++ LF) w
              Hws eq_refl) as [Hlocal _].
  split; [exact Hws | split; [exact Hlocal |]].
  rewrite Hlocal. vm_compute. reflexivity.
Defined.

(** "freq %d" and "mode %s" in one call and in two. *)
Lemma joined_message_as_two_calls_run :
  let w := grig_debug_set_level 3 (initial_world sample_clock) in
  let both := snd (grig_debug_hamlib_cb 2 ("freq %d" ++ LF ++ "mode %s")
                     [ArgInt 14070; ArgStr "USB"] w) in
  both = snd (grig_debug_hamlib_cb 2 "mode %s" [ArgStr "USB"]
                (snd (grig_debug_hamlib_cb 2 "freq %d" [ArgInt 14070] w)))
  /\ stderr both
     = [("2024/02/29 12:00:00|HAMLIB|2|freq 14070" ++ LF)%string;
        ("2024/02/29 12:00:01|HAMLIB|2|mode USB" ++ LF)%string].
Proof.
  intros w both.
  destruct (joined_message_as_two_calls 2 ("freq %d" ++ LF ++ "mode %s")
              "freq %d" "mode %s" [ArgInt 14070; ArgStr "USB"]
              [ArgInt 14070] [ArgStr "USB"] w) as [_ Hcb].
  - vm_compute. reflexivity.
  - vm_compute. discriminate.
  - vm_compute. reflexivity.
  - vm_compute. discriminate.
  - split; [exact Hcb |]. vm_compute. reflexivity.
Defined.

(** After the sample session and a return to the threshold 0, a message at
    level RIG_DEBUG_NONE is still written. *)
Lemma level_none_never_silenced_run :
  let w := run_calls (sample_session ++ [call_set_level 0]) (initial_world sample_clock) in
  RIG_DEBUG_NONE <= RIG_DEBUG_TRACE
  /\ grig_debug_get_level w = 0
  /\ stderr (snd (grig_debug_local RIG_DEBUG_NONE "always" [] w))
     = stderr w ++ [("2024/02/29 12:00:04|GRIG|0|always" ++ LF)%string].
Proof.
  intros w.
  assert (Hrange : RIG_DEBUG_NONE <= RIG_DEBUG_TRACE) by (vm_compute; discriminate).
  split; [exact Hrange | split; [reflexivity |]].
  destruct (level_none_never_silenced sample_clock
              (sample_session ++ [call_set_level 0]) "always" [] Hrange)
    as (_ & Hlocal & _).
  - vm_compute. discriminate.
  - fold w in Hlocal. rewrite Hlocal. vm_compute. reflexivity.
Defined.

End MessagesRuns.

(** ** After the shutdown *)
Section AfterClose.

Context {hamlib : rig_h} {header : grig_debug_h}.

(** X12. [grig_debug_close] leaves no closed state behind: the threshold
    is kept, so a call of [grig_debug_local] that passes the filter before
    the shutdown is still written after it; a second [grig_debug_close]
    writes a second shutdown record and a second [grig_debug_init] a second
    confirmation, when the threshold lets them through. *)
Theorem close_keeps_sink_open (w : world) (debug_level : Z) (fmt : string)
    (ap : list printf_arg) :
  grig_debug_get_level (grig_debug_close w) = grig_debug_get_level w
  /\ (debug_level <= dbglvl w ->
        stderr (snd (grig_debug_local debug_level fmt ap (grig_debug_close w)))
        = stderr (grig_debug_close w)
            ++ records_from (clock w) (clock_reads (grig_debug_close w)) MSG_SRC_GRIG
                 debug_level (lines_of_message (g_strdup_vprintf fmt ap)))
  /\ (RIG_DEBUG_VERBOSE <= dbglvl w ->
        stderr (grig_debug_close (grig_debug_close w))
        = stderr w
            ++ [debug_record (clock w (clock_reads w)) MSG_SRC_GRIG RIG_DEBUG_VERBOSE
                  "grig_debug_close: Shutting down debug handler.";
                debug_record (clock w (S (clock_reads w))) MSG_SRC_GRIG RIG_DEBUG_VERBOSE
                  "grig_debug_close: Shutting down debug handler."])
  /\ (RIG_DEBUG_VERBOSE <= dbglvl w ->
        forall f1 f2,
          stderr (grig_debug_init f2 (grig_debug_init f1 w))
          = stderr w
              ++ [debug_record (clock w (clock_reads w)) MSG_SRC_GRIG RIG_DEBUG_VERBOSE
                    "grig_debug_init: Debug handler initialised.";
                  debug_record (clock w (S (clock_reads w))) MSG_SRC_GRIG
                    RIG_DEBUG_VERBOSE
                    "grig_debug_init: Debug handler initialised."]).
Proof.
  destruct (run_call_globals call_close w) as (_ & Hclk & Hlvl).
  cbn [run_call not_set_level] in Hclk, Hlvl. specialize (Hlvl I).
  split; [exact Hlvl | split; [| split]].
  - intros H. rewrite local_entry, debug_entry_passed by lia.
    cbn [snd emitted stderr]. now rewrite Hclk.
  - intros H. rewrite (close_passed w) by exact H.
    rewrite close_passed by exact H.
    cbn [stderr emitted rig_set_debug_callback clock clock_reads List.length].
    rewrite <- app_assoc, Nat.add_1_r. reflexivity.
  - intros H f1 f2. rewrite (init_passed f1 w) by exact H.
    rewrite init_passed by exact H.
    cbn [stderr emitted rig_set_debug_callback clock clock_reads List.length].
    rewrite <- app_assoc, Nat.add_1_r. reflexivity.
Qed.

End AfterClose.

Section AfterCloseRuns.

#[local] Existing Instance hamlib_values.
#[local] Existing Instance bar_separator.

(** [close] at the threshold 4, then a message at level 1. *)
Lemma close_keeps_sink_open_run :
  let w := grig_debug_set_level 4 (initial_world sample_clock) in
  stderr (snd (grig_debug_local 1 "still here" [] (grig_debug_close w)))
  = [("2024/02/29 12:00:00|GRIG|4|grig_debug_close: Shutting down debug handler." ++ LF)%string;
     ("2024/02/29 12:00:01|GRIG|1|still here" ++ LF)%string].
Proof.
  intros w.
  destruct (close_keeps_sink_open w 1 "still here" []) as (_ & Hlog & _).
  rewrite Hlog by (vm_compute; discriminate). vm_compute. reflexivity.
Defined.

End AfterCloseRuns.
